(** * A shallow embedding of the laptop-listing scraper (main.py)

    The program fetches listing pages, reads the pagination links and the
    product cards out of the parsed markup, and exports the records as CSV
    and JSON.  This file embeds the two readers and the two exporters:

    - [parse_page] and [get_pagination_links] work on the tree that
      [BeautifulSoup(html, 'html.parser')] builds; the tree is the input
      here, tokenising the markup is not modelled, nor is the request of
      [get_page];
    - [save_to_csv] and [save_to_json] thread an explicit file store;
    - Python exceptions are values of [exn], carried by [result].

    A Python [str] is a sequence of code points, so it is a [list N]. *)

From Stdlib Require Import String Ascii List NArith Bool Lia.
Import ListNotations.
#[local] Set Warnings "-register-all".
Local Open Scope N_scope.
Local Open Scope list_scope.

(** ** Python strings *)

Definition char := N.
Definition str := list char.

(** [py "abc"] is the Python literal ['abc'] (ASCII literals only). *)
Definition py (s : string) : str := map N_of_ascii (list_ascii_of_string s).

Fixpoint str_eqb (a b : str) : bool :=
  match a, b with
  | [], [] => true
  | x :: a', y :: b' => N.eqb x y && str_eqb a' b'
  | _, _ => false
  end.

(** [sep.join(parts)] *)
Fixpoint join (sep : str) (parts : list str) : str :=
  match parts with
  | [] => []
  | [p] => p
  | p :: rest => p ++ sep ++ join sep rest
  end.

(** [str.isspace] for one code point: the characters [str.strip()] removes
    (Unicode White_Space as CPython's [_PyUnicode_IsWhitespace] lists them). *)
Definition isspace (c : char) : bool :=
  ((0x09 <=? c) && (c <=? 0x0d)) || ((0x1c <=? c) && (c <=? 0x20))
  || (c =? 0x85) || (c =? 0xa0) || (c =? 0x1680)
  || ((0x2000 <=? c) && (c <=? 0x200a))
  || (c =? 0x2028) || (c =? 0x2029) || (c =? 0x202f) || (c =? 0x205f)
  || (c =? 0x3000).

Fixpoint lstrip (s : str) : str :=
  match s with
  | c :: t => if isspace c then lstrip t else s
  | [] => []
  end.

Definition rstrip (s : str) : str := rev (lstrip (rev s)).

(** [s.strip()] *)
Definition strip (s : str) : str := rstrip (lstrip s).

(** ** Exceptions *)

Inductive exn : Set :=
| TypeError | KeyError | AttributeError | ValueError | UnicodeEncodeError
| JSONDecodeError.

Inductive result (A : Type) : Type :=
| Ok (a : A)
| Raise (e : exn).
Arguments Ok {A} a.
Arguments Raise {A} e.

Definition bind {A B} (r : result A) (k : A -> result B) : result B :=
  match r with
  | Ok a => k a
  | Raise e => Raise e
  end.

Notation "x <- r ;; k" := (bind r (fun x => k))
  (at level 61, r at next level, right associativity).

(** ** Dictionaries with string keys and values

    A [dict] keeps its keys in insertion order; assigning to a key that is
    present replaces the value where it stands. *)

Section Dict.
Context {V : Type}.

(** [d.get(k)] *)
Fixpoint dict_get (d : list (str * V)) (k : str) : option V :=
  match d with
  | [] => None
  | (k', v) :: rest => if str_eqb k' k then Some v else dict_get rest k
  end.

(** [d[k] = v] *)
Fixpoint dict_set (d : list (str * V)) (k : str) (v : V) : list (str * V) :=
  match d with
  | [] => [(k, v)]
  | (k', v') :: rest =>
      if str_eqb k' k then (k', v) :: rest else (k', v') :: dict_set rest k v
  end.

(** [dict(pairs)] *)
Definition dict_of (pairs : list (str * V)) : list (str * V) :=
  fold_left (fun d kv => dict_set d (fst kv) (snd kv)) pairs [].
End Dict.

(** The dictionaries of the program map strings to strings. *)
Definition dict := list (str * str).

(** [d.keys()] *)
Definition keys (d : dict) : list str := map fst d.

(** ** The parsed document *)

(** A [Tag] has a name, the value of its multi-valued [class] attribute
    (the list of its tokens, [[]] when the attribute is absent), its other
    attributes and its children.  [Comment] stands for every string node
    that [.text] leaves out (comments, declarations, doctypes, the
    contents of scripts and style sheets). *)
Inductive node : Type :=
| Tag (name : str) (classes : list str) (attrs : dict) (contents : list node)
| NavigableString (s : str)
| Comment (s : str).

(** [tag.descendants]: every node below [n], in document order. *)
Fixpoint descendants (n : node) : list node :=
  match n with
  | Tag _ _ _ cs => flat_map (fun c => c :: descendants c) cs
  | _ => []
  end.

(** [tag.text]: the text nodes below [n], concatenated. *)
Fixpoint get_text (n : node) : str :=
  match n with
  | Tag _ _ _ cs => concat (map get_text cs)
  | NavigableString s => s
  | Comment _ => []
  end.

(** A [class_=c] filter holds when one token of the attribute is [c], or
    when the whole attribute value, its tokens joined by a blank, is [c]. *)
Definition class_matches (c : str) (classes : list str) : bool :=
  match classes with
  | [] => false
  | _ => existsb (fun t => str_eqb t c) classes || str_eqb (join (py " ") classes) c
  end.

Definition tag_matches (name c : str) (n : node) : bool :=
  match n with
  | Tag nm cls _ _ => str_eqb nm name && class_matches c cls
  | _ => false
  end.

(** [n.find_all(name, class_=c)] *)
Definition find_all (name c : str) (n : node) : list node :=
  filter (tag_matches name c) (descendants n).

(** [n.find(name, class_=c)]: the first result of [find_all], or [None]. *)
Definition find (name c : str) (n : node) : option node :=
  hd_error (find_all name c n).

Definition tag_attrs (n : node) : dict :=
  match n with
  | Tag _ _ a _ => a
  | _ => []
  end.

(** [o[key]] for the result [o] of a [find]: [None] is not subscriptable,
    a tag without the attribute raises [KeyError]. *)
Definition getitem (o : option node) (key : str) : result str :=
  match o with
  | None => Raise TypeError
  | Some t =>
      match dict_get (tag_attrs t) key with
      | Some v => Ok v
      | None => Raise KeyError
      end
  end.

(** [o.text] for the result [o] of a [find]: [None] has no attribute. *)
Definition text (o : option node) : result str :=
  match o with
  | None => Raise AttributeError
  | Some t => Ok (get_text t)
  end.

(** ** parse_page *)

(** The body of the loop over the blocks: one dictionary per block. *)
Definition parse_block (block : node) : result dict :=
  let computer := [] in
  name <- getitem (find (py "a") (py "title") block) (py "title") ;;
  let computer := dict_set computer (py "Name") name in
  description <- text (find (py "p") (py "description card-text") block) ;;
  let computer := dict_set computer (py "Description") (strip description) in
  price <- text (find (py "h4") (py "price") block) ;;
  let computer := dict_set computer (py "Price") (strip price) in
  Ok computer.

Fixpoint parse_blocks (blocks : list node) (computers_data : list dict)
  : result (list dict) :=
  match blocks with
  | [] => Ok computers_data
  | block :: rest =>
      computer <- parse_block block ;;
      parse_blocks rest (computers_data ++ [computer])
  end.

Definition parse_page (soup : node) : result (list dict) :=
  let computer_blocks := find_all (py "div") (py "card-body") soup in
  parse_blocks computer_blocks [].

(** ** get_pagination_links *)

Section Pagination.

(** [str.isalnum] for one code point.  The table comes from the Unicode
    character database; the development holds for any table. *)
Variable isalnum : char -> bool.

(** [\w] *)
Definition word_char (c : char) : bool := isalnum c || (c =? 95).

(** [[\w.-]] *)
Definition host_char (c : char) : bool :=
  word_char c || (c =? 46) || (c =? 45).

(** [s.startswith(p)], returning what follows the prefix. *)
Fixpoint strip_prefix (p s : str) : option str :=
  match p, s with
  | [], _ => Some s
  | x :: p', y :: s' => if x =? y then strip_prefix p' s' else None
  | _ :: _, [] => None
  end.

(** [[\w.-]+/] at the start of [s]: the longest run of host characters
    that a slash follows (greedy, with backtracking); the run is
    returned. *)
Fixpoint match_host (s : str) : option str :=
  match s with
  | [] => None
  | c :: t =>
      if host_char c then
        match match_host t with
        | Some h => Some (c :: h)
        | None =>
            match t with
            | c' :: _ => if c' =? 47 then Some [c] else None
            | [] => None
            end
        end
      else None
  end.

(** [://[\w.-]+/.*] after the scheme; [.*] takes what is left of the
    line and cannot fail. *)
Definition match_after_scheme (scheme rest : str) : option str :=
  match strip_prefix (py "://") rest with
  | Some r =>
      match match_host r with
      | Some host => Some (scheme ++ py "://" ++ host)
      | None => None
      end
  | None => None
  end.

(** [re.match(r'(https?://[\w.-]+)/.*', url)]: [None] when the pattern
    does not match at the start of [url], else the match, of which only
    group 1 is kept.  [s?] first tries to take an [s]. *)
Definition re_match (url : str) : option str :=
  match strip_prefix (py "http") url with
  | Some (c :: r) =>
      if c =? 115 then
        match match_after_scheme (py "https") r with
        | Some g => Some g
        | None => match_after_scheme (py "http") (c :: r)
        end
      else match_after_scheme (py "http") (c :: r)
  | Some [] => None
  | None => None
  end.

(** [matches.group(1)]: [None] has no attribute [group]. *)
Definition group1 (matches : option str) : result str :=
  match matches with
  | Some g => Ok g
  | None => Raise AttributeError
  end.

(** The loop over the anchors of the pagination control. *)
Fixpoint collect_links (matches : option str) (page_links_href : list node)
    (page_links : list str) : result (list str) :=
  match page_links_href with
  | [] => Ok page_links
  | link :: rest =>
      link_atr <- getitem (Some link) (py "href") ;;
      origin <- group1 matches ;;
      let page_link := origin ++ link_atr in
      collect_links matches rest (page_links ++ [page_link])
  end.

Definition get_pagination_links (soup : node) (url : str) : result (list str) :=
  let page_links := [url] in
  let matches := re_match url in
  match find (py "ul") (py "pagination") soup with
  | Some pagination =>
      let page_links_href := find_all (py "a") (py "page-link") pagination in
      collect_links matches page_links_href page_links
  | None => Ok []
  end.

End Pagination.

(** [str.isalnum] restricted to ASCII: digits and letters. *)
Definition ascii_isalnum (c : char) : bool :=
  ((48 <=? c) && (c <=? 57)) || ((65 <=? c) && (c <=? 90))
  || ((97 <=? c) && (c <=? 122)).

(** ** Text files

    The store maps a file name to the text of the file.  Both exporters open
    their file with [encoding='utf-8']: a write of text that UTF-8 cannot
    encode (a surrogate code point) raises and leaves the file as the
    earlier writes made it.  Newlines are written as they are ([newline='']
    for the CSV file, a POSIX system for the JSON file).  Failures of
    [open] itself are outside the model. *)

Definition files := str -> option str.

Definition fs_update (fs : files) (filename content : str) : files :=
  fun n => if str_eqb n filename then Some content else fs n.

Definition encodable (c : char) : bool :=
  (c <? 0xd800) || ((0xdfff <? c) && (c <=? 0x10ffff)).

(** A block of writes: from the text written so far to the text written
    afterwards and the outcome. *)
Definition writes (A : Type) := str -> str * result A.

Definition wret {A} (a : A) : writes A := fun content => (content, Ok a).

Definition wraise {A} (e : exn) : writes A := fun content => (content, Raise e).

Definition wbind {A B} (m : writes A) (k : A -> writes B) : writes B :=
  fun content =>
    match m content with
    | (content', Ok a) => k a content'
    | (content', Raise e) => (content', Raise e)
    end.

Notation "m >> k" := (wbind m (fun _ => k))
  (at level 62, right associativity).

(** [f.write(chunk)] *)
Definition fwrite (chunk : str) : writes unit :=
  fun content =>
    if forallb encodable chunk then (content ++ chunk, Ok tt)
    else (content, Raise UnicodeEncodeError).

(** [with open(filename, 'w', ...) as f: body]: the file is created or
    truncated, and closed with what [body] wrote, also when [body] raises. *)
Definition with_open {A} (filename : str) (body : writes A) (fs : files)
  : files * result A :=
  let '(content, r) := body [] in (fs_update fs filename content, r).

(** ** save_to_csv *)

(** A field is quoted when it holds the delimiter, the quote character or a
    character of the line terminator; quote characters are doubled. *)
Definition csv_special (c : char) : bool :=
  (c =? 44) || (c =? 34) || (c =? 13) || (c =? 10).

Definition csv_field (f : str) : str :=
  if existsb csv_special f
  then [34] ++ flat_map (fun c => if c =? 34 then [34; 34] else [c]) f ++ [34]
  else f.

(** [csv.writer(f).writerow(fields)] in the default dialect: a row whose
    single field is empty is written as a pair of quotes. *)
Definition csv_line (fields : list str) : str :=
  match fields with
  | [[]] => [34; 34; 13; 10]
  | _ => join [44] (map csv_field fields) ++ [13; 10]
  end.

Definition mem (k : str) (l : list str) : bool := existsb (str_eqb k) l.

(** [DictWriter._dict_to_list]: keys outside [fieldnames] are an error
    ([extrasaction='raise']), missing fields are written empty. *)
Definition dict_to_list (fieldnames : list str) (rowdict : dict)
  : result (list str) :=
  if forallb (fun k => mem k fieldnames) (keys rowdict)
  then Ok (map (fun key => match dict_get rowdict key with
                           | Some v => v
                           | None => []
                           end) fieldnames)
  else Raise ValueError.

(** [writer.writerow(rowdict)] *)
Definition writerow (fieldnames : list str) (rowdict : dict) : writes unit :=
  match dict_to_list fieldnames rowdict with
  | Ok fields => fwrite (csv_line fields)
  | Raise e => wraise e
  end.

(** [writer.writeheader()]: the row [dict(zip(fieldnames, fieldnames))]. *)
Definition writeheader (fieldnames : list str) : writes unit :=
  writerow fieldnames (dict_of (combine fieldnames fieldnames)).

(** [for row in rows: writer.writerow(row)] *)
Fixpoint write_rows (fieldnames : list str) (rows : list dict) : writes unit :=
  match rows with
  | [] => wret tt
  | row :: rest => writerow fieldnames row >> write_rows fieldnames rest
  end.

(** [for rows in data: ...] *)
Fixpoint write_batches (fieldnames : list str) (data : list (list dict))
  : writes unit :=
  match data with
  | [] => wret tt
  | rows :: rest => write_rows fieldnames rows >> write_batches fieldnames rest
  end.

Definition save_to_csv (data : list (list dict)) (filename : str) (fs : files)
  : files * result unit :=
  match data with
  | [] => (fs, Ok tt)
  | batch0 :: _ =>
      with_open filename
        (let fieldnames := match batch0 with
                           | row0 :: _ => keys row0
                           | [] => []
                           end in
         writeheader fieldnames >> write_batches fieldnames data)
        fs
  end.

(** ** save_to_json *)

(** The lower-case hexadecimal digit of [n < 16]. *)
Definition hex_digit (n : N) : char := if n <? 10 then 48 + n else 87 + n.

(** The replacement of one character in [json.encoder.py_encode_basestring]
    ([ensure_ascii=False]): the quote, the backslash and the control
    characters are escaped, every other character is kept. *)
Definition json_escape (c : char) : str :=
  if c =? 34 then [92; 34]
  else if c =? 92 then [92; 92]
  else if c =? 10 then [92; 110]
  else if c =? 13 then [92; 114]
  else if c =? 9 then [92; 116]
  else if c =? 8 then [92; 98]
  else if c =? 12 then [92; 102]
  else if c <? 32 then [92; 117; 48; 48; hex_digit (c / 16); hex_digit (c mod 16)]
  else [c].

Definition encode_basestring (s : str) : str :=
  [34] ++ flat_map json_escape s ++ [34].

(** ['\n' + _indent * level] with [indent=4] *)
Definition newline_indent (level : nat) : str :=
  10 :: concat (repeat (py "    ") level).

(** The chunks [_iterencode_dict] yields for the items of a dictionary. *)
Fixpoint iterencode_items (items : dict) (first : bool) (item_separator : str)
  : list str :=
  match items with
  | [] => []
  | (key, value) :: rest =>
      (if first then [] else [item_separator])
      ++ [encode_basestring key; py ": "; encode_basestring value]
      ++ iterencode_items rest false item_separator
  end.

Definition iterencode_dict (dct : dict) (level : nat) : list str :=
  match dct with
  | [] => [py "{}"]
  | _ =>
      [py "{"; newline_indent (S level)]
      ++ iterencode_items dct true ([44] ++ newline_indent (S level))
      ++ [newline_indent level; py "}"]
  end.

(** The chunks [_iterencode_list] yields for the values of a list. *)
Fixpoint iterencode_values (lst : list dict) (buf separator : str) (level : nat)
  : list str :=
  match lst with
  | [] => []
  | value :: rest =>
      [buf] ++ iterencode_dict value level
      ++ iterencode_values rest separator separator level
  end.

Definition iterencode_list (lst : list dict) (level : nat) : list str :=
  match lst with
  | [] => [py "[]"]
  | _ =>
      iterencode_values lst (py "[" ++ newline_indent (S level))
        ([44] ++ newline_indent (S level)) (S level)
      ++ [newline_indent level; py "]"]
  end.

(** [json.dump(obj, fp, ensure_ascii=False, indent=4)]: one write per chunk. *)
Fixpoint write_chunks (chunks : list str) : writes unit :=
  match chunks with
  | [] => wret tt
  | chunk :: rest => fwrite chunk >> write_chunks rest
  end.

Definition json_dump (obj : list dict) : writes unit :=
  write_chunks (iterencode_list obj 0).

Definition save_to_json (data : list (list dict)) (filename : str) (fs : files)
  : files * result unit :=
  match data with
  | [] => (fs, Ok tt)
  | _ =>
      let flat_data := concat data in
      with_open filename (json_dump flat_data) fs
  end.

(** ** Reading JSON back

    [json.loads] on documents made of arrays, objects and strings, which is
    all the exporter writes.  Numbers and the literals [true], [false] and
    [null] are left out of the model: a document that holds one is reported
    as undecodable here. *)

Inductive json : Type :=
| JString (s : str)
| JArray (items : list json)
| JObject (members : list (str * json)).

Definition is_ws (c : char) : bool :=
  (c =? 32) || (c =? 9) || (c =? 10) || (c =? 13).

Fixpoint skip_ws (s : str) : str :=
  match s with
  | c :: t => if is_ws c then skip_ws t else s
  | [] => []
  end.

Definition hex_value (c : char) : option N :=
  if (48 <=? c) && (c <=? 57) then Some (c - 48)
  else if (97 <=? c) && (c <=? 102) then Some (c - 87)
  else if (65 <=? c) && (c <=? 70) then Some (c - 55)
  else None.

(** [_decode_uXXXX]: the value of four hexadecimal digits. *)
Definition decode_uXXXX (a b c d : char) : option N :=
  match hex_value a, hex_value b, hex_value c, hex_value d with
  | Some x, Some y, Some z, Some w => Some (((x * 16 + y) * 16 + z) * 16 + w)
  | _, _, _, _ => None
  end.

(** The table [BACKSLASH] of the one-letter escapes. *)
Definition backslash (esc : char) : option char :=
  if esc =? 34 then Some 34
  else if esc =? 92 then Some 92
  else if esc =? 47 then Some 47
  else if esc =? 98 then Some 8
  else if esc =? 102 then Some 12
  else if esc =? 110 then Some 10
  else if esc =? 114 then Some 13
  else if esc =? 116 then Some 9
  else None.

Definition cons_char (c : char) (r : result (str * str)) : result (str * str) :=
  p <- r ;; Ok (c :: fst p, snd p).

(** [scanstring] in strict mode, from just after the opening quote: the
    decoded string and the text after the closing quote. *)
Fixpoint scanstring (s : str) : result (str * str) :=
  match s with
  | [] => Raise JSONDecodeError
  | c :: rest =>
      if c =? 34 then Ok ([], rest)
      else if c =? 92 then
        match rest with
        | [] => Raise JSONDecodeError
        | esc :: rest1 =>
            if esc =? 117 then
              match rest1 with
              | a :: b :: c1 :: d :: rest2 =>
                  match decode_uXXXX a b c1 d with
                  | None => Raise JSONDecodeError
                  | Some uni =>
                      if (0xd800 <=? uni) && (uni <=? 0xdbff) then
                        match rest2 with
                        | b1 :: u1 :: e :: f :: g :: h :: rest3 =>
                            if (b1 =? 92) && (u1 =? 117) then
                              match decode_uXXXX e f g h with
                              | None => Raise JSONDecodeError
                              | Some uni2 =>
                                  if (0xdc00 <=? uni2) && (uni2 <=? 0xdfff) then
                                    cons_char
                                      (0x10000 + N.lor (N.shiftl (uni - 0xd800) 10)
                                                       (uni2 - 0xdc00))
                                      (scanstring rest3)
                                  else cons_char uni (scanstring rest2)
                              end
                            else cons_char uni (scanstring rest2)
                        | _ => cons_char uni (scanstring rest2)
                        end
                      else cons_char uni (scanstring rest2)
                  end
              | _ => Raise JSONDecodeError
              end
            else
              match backslash esc with
              | Some ch => cons_char ch (scanstring rest1)
              | None => Raise JSONDecodeError
              end
        end
      else if c <? 32 then Raise JSONDecodeError
      else cons_char c (scanstring rest)
  end.

Section Decoder.

(** The scanner for one value, called back for the nested values. *)
Variable scan_once : str -> result (json * str).

(** The loop of [JSONArray], entered in front of a value.  Every turn
    consumes a character, so [n] turns are enough for a text of [n]
    characters. *)
Fixpoint array_loop (n : nat) (s : str) (values : list json)
  : result (list json * str) :=
  match n with
  | O => Raise JSONDecodeError
  | S n' =>
      p <- scan_once s ;;
      let values := values ++ [fst p] in
      match skip_ws (snd p) with
      | c :: s' =>
          if c =? 93 then Ok (values, s')
          else if c =? 44 then array_loop n' (skip_ws s') values
          else Raise JSONDecodeError
      | [] => Raise JSONDecodeError
      end
  end.

(** [JSONArray], from just after the opening bracket. *)
Definition JSONArray (s : str) : result (json * str) :=
  match skip_ws s with
  | c :: s' =>
      if c =? 93 then Ok (JArray [], s')
      else p <- array_loop (length s) (c :: s') [] ;;
           Ok (JArray (fst p), snd p)
  | [] => Raise JSONDecodeError
  end.

(** The loop of [JSONObject], entered just after the opening quote of a
    key. *)
Fixpoint object_loop (n : nat) (s : str) (pairs : list (str * json))
  : result (list (str * json) * str) :=
  match n with
  | O => Raise JSONDecodeError
  | S n' =>
      k <- scanstring s ;;
      match skip_ws (snd k) with
      | c :: s1 =>
          if c =? 58 then
            p <- scan_once (skip_ws s1) ;;
            let pairs := pairs ++ [(fst k, fst p)] in
            match skip_ws (snd p) with
            | c' :: s2 =>
                if c' =? 125 then Ok (pairs, s2)
                else if c' =? 44 then
                  match skip_ws s2 with
                  | q :: s3 =>
                      if q =? 34 then object_loop n' s3 pairs
                      else Raise JSONDecodeError
                  | [] => Raise JSONDecodeError
                  end
                else Raise JSONDecodeError
            | [] => Raise JSONDecodeError
            end
          else Raise JSONDecodeError
      | [] => Raise JSONDecodeError
      end
  end.

(** [JSONObject], from just after the opening brace; the pairs become a
    dictionary. *)
Definition JSONObject (s : str) : result (json * str) :=
  match skip_ws s with
  | c :: s' =>
      if c =? 125 then Ok (JObject [], s')
      else if c =? 34 then
        p <- object_loop (length s) s' [] ;;
        Ok (JObject (dict_of (fst p)), snd p)
      else Raise JSONDecodeError
  | [] => Raise JSONDecodeError
  end.

End Decoder.

(** [scan_once]; [depth] bounds the nesting of the document. *)
Fixpoint scan_once (depth : nat) (s : str) : result (json * str) :=
  match depth with
  | O => Raise JSONDecodeError
  | S depth' =>
      match s with
      | c :: rest =>
          if c =? 34 then p <- scanstring rest ;; Ok (JString (fst p), snd p)
          else if c =? 123 then JSONObject (scan_once depth') rest
          else if c =? 91 then JSONArray (scan_once depth') rest
          else Raise JSONDecodeError
      | [] => Raise JSONDecodeError
      end
  end.

(** [json.loads(s)]: one value, with only blanks around it.  No document
    nests deeper than it is long. *)
Definition json_loads (s : str) : result json :=
  p <- scan_once (length s) (skip_ws s) ;;
  match skip_ws (snd p) with
  | [] => Ok (fst p)
  | _ :: _ => Raise JSONDecodeError
  end.

(** What [json.loads] makes of a list of the program's dictionaries. *)
Definition json_of_dict (d : dict) : json :=
  JObject (map (fun kv => (fst kv, JString (snd kv))) d).

Definition json_of_records (l : list dict) : json :=
  JArray (map json_of_dict l).

(** ** Vocabulary of the statements *)

Definition record (name description price : str) : dict :=
  [(py "Name", name); (py "Description", description); (py "Price", price)].

(** The dictionaries [parse_page] builds: the three keys, in this order. *)
Definition is_record (d : dict) : Prop :=
  keys d = [py "Name"; py "Description"; py "Price"].

(** [block] holds the three elements [parse_page] reads, with these
    contents: the first anchor of class [title] carries a [title]
    attribute, and a paragraph of class [description card-text] and a
    heading [h4] of class [price] exist. *)
Definition block_fields (block : node) (name description price : str) : Prop :=
  exists a p h,
    find (py "a") (py "title") block = Some a
    /\ dict_get (tag_attrs a) (py "title") = Some name
    /\ find (py "p") (py "description card-text") block = Some p
    /\ get_text p = description
    /\ find (py "h4") (py "price") block = Some h
    /\ get_text h = price.

Definition well_formed (block : node) : Prop :=
  exists name description price, block_fields block name description price.

(** The record of a well-formed block. *)
Definition record_of (block : node) (d : dict) : Prop :=
  exists name description price,
    block_fields block name description price
    /\ d = record name (strip description) (strip price).

(** An exception of a failed lookup: subscripting [None], reading an
    attribute of [None], or reading an attribute a tag has not. *)
Definition lookup_error (e : exn) : Prop :=
  e = TypeError \/ e = AttributeError \/ e = KeyError.

(** [block] lacks one of the three elements: no anchor of class [title]
    that carries a title, no description paragraph, or no price heading. *)
Definition missing_element (block : node) : Prop :=
  (forall a, find (py "a") (py "title") block = Some a ->
             dict_get (tag_attrs a) (py "title") = None)
  \/ find (py "p") (py "description card-text") block = None
  \/ find (py "h4") (py "price") block = None.

(** A card as the listing pages of the site have them. *)
Definition card (title description price : str) : node :=
  Tag (py "div") [py "card-body"] []
    [ Tag (py "h4") [py "price"; py "float-end"; py "card-title"] []
        [NavigableString price];
      Tag (py "h4") [] []
        [ Tag (py "a") [py "title"]
            [(py "href", py "/test-sites/e-commerce/static/product/31");
             (py "title", title)]
            [NavigableString title] ];
      Tag (py "p") [py "description"; py "card-text"] []
        [NavigableString description] ].

Definition document (contents : list node) : node :=
  Tag (py "[document]") [] [] contents.

Definition thinkpad_page : node :=
  document [card (py "ThinkPad X1") (py " Fast laptop ") (py " $999 ")].

(** A card without its price heading. *)
Definition card_without_price : node :=
  Tag (py "div") [py "card-body"] []
    [ Tag (py "a") [py "title"] [(py "title", py "Aspire")] [];
      Tag (py "p") [py "description"; py "card-text"] []
        [NavigableString (py "15 inch")] ].

(** The anchor [link] carries the attribute [href], with value [h]. *)
Definition has_href (link : node) (h : str) : Prop :=
  dict_get (tag_attrs link) (py "href") = Some h.

(** [origin] is the scheme and the host of [url], and a slash follows it. *)
Definition origin_of (isalnum : char -> bool) (url origin : str) : Prop :=
  exists scheme host rest,
    (scheme = py "http" \/ scheme = py "https")
    /\ host <> [] /\ forallb (host_char isalnum) host = true
    /\ origin = scheme ++ py "://" ++ host
    /\ url = origin ++ py "/" ++ rest.

Definition listing_url : str :=
  py "https://example.com/test-sites/e-commerce/static/computers/laptops".

Definition page_link (href : str) : node :=
  Tag (py "li") [py "page-item"] []
    [Tag (py "a") [py "page-link"] [(py "href", href)] [NavigableString (py "2")]].

(** A listing page with a pagination control of two links, the same link
    twice. *)
Definition paginated_page : node :=
  document
    [ card (py "A") (py "a") (py "1");
      Tag (py "ul") [py "pagination"] []
        [ page_link (py "/laptops?page=2"); page_link (py "/laptops?page=2") ] ].

(** A listing page whose pagination control has no link. *)
Definition empty_pagination_page : node :=
  document [Tag (py "ul") [py "pagination"] [] [NavigableString (py " ")]].

(** A listing page without a pagination control. *)
Definition unpaginated_page : node :=
  document [card (py "A") (py "a") (py "1")].

(** UTF-8 can encode every character of [s]. *)
Definition str_encodable (s : str) : Prop := forallb encodable s = true.

(** UTF-8 can encode the keys and the values of [d]. *)
Definition dict_encodable (d : dict) : Prop :=
  Forall (fun kv => str_encodable (fst kv) /\ str_encodable (snd kv)) d.

(** The values of a dictionary, in key order: [d.values()]. *)
Definition values (d : dict) : list str := map snd d.

(** The text of a CSV file with these rows. *)
Definition csv_text (rows : list (list str)) : str :=
  concat (map csv_line rows).

Definition no_files : files := fun _ => None.

Definition laptop : dict :=
  record (py "Aspire") (py "15 inch, 8GB") (py "$499").

(** A record whose description holds a lone surrogate, as the reference
    [&#xD800;] in the text of a page gives. *)
Definition surrogate_laptop : dict :=
  record (py "Aspire") [0xd800] (py "$499").

Definition csv_filename : str := py "computers_data.csv".

Definition json_filename : str := py "computers_data.json".

(** A key and its value, as the decoder returns them. *)
Definition json_pair (kv : str * str) : str * json := (fst kv, JString (snd kv)).

(** What [_iterencode_dict] writes after the opening brace. *)
Definition dict_body (level : nat) (d : dict) (tail : str) : str :=
  match d with
  | [] => 125 :: tail
  | _ =>
      newline_indent (S level)
      ++ concat (iterencode_items d true ([44] ++ newline_indent (S level)))
      ++ newline_indent level ++ 125 :: tail
  end.

(** What the decoder makes of the text of a dictionary. *)
Definition json_dict (d : dict) : json := JObject (dict_of (map json_pair d)).

(** The characters outside ASCII. *)
Definition non_ascii (c : char) : bool := 127 <? c.

(** The keys and the values of the dictionaries of [lst], in the order
    [json.dump] meets them. *)
Definition strings_of (lst : list dict) : list str :=
  flat_map (fun d => flat_map (fun kv => [fst kv; snd kv]) d) lst.

(** ** Further vocabulary *)

(** [s] neither starts nor ends with a blank. *)
Definition stripped (s : str) : Prop :=
  match s with c :: _ => isspace c = false | [] => True end
  /\ match rev s with c :: _ => isspace c = false | [] => True end.

(** The exception the lookups of [parse_page] raise on a block that lacks
    an element: the anchor is looked up first. *)
Definition block_error (block : node) : exn :=
  match find (py "a") (py "title") block with
  | None => TypeError
  | Some a =>
      match dict_get (tag_attrs a) (py "title") with
      | None => KeyError
      | Some _ => AttributeError
      end
  end.

(** [s.startswith(p)] *)
Definition startswith (p s : str) : Prop := exists rest, s = p ++ rest.

(** A card whose anchor has no title. *)
Definition card_without_title : node :=
  Tag (py "div") [py "card-body"] []
    [ Tag (py "a") [py "title"] [(py "href", py "/p/1")] [];
      Tag (py "p") [py "description"; py "card-text"] []
        [NavigableString (py "15 inch")] ].

(** A pagination control whose second anchor has no [href]. *)
Definition broken_pagination_page : node :=
  document
    [Tag (py "ul") [py "pagination"] []
       [ page_link (py "/laptops?page=2");
         Tag (py "a") [py "page-link"] [] [NavigableString (py "3")] ]].

(** The fields of [row] under the columns [fieldnames]: the value of each
    column, empty where [row] has no such key. *)
Definition row_fields (fieldnames : list str) (row : dict) : list str :=
  map (fun key => match dict_get row key with
                  | Some v => v
                  | None => []
                  end) fieldnames.

(** Every key of [row] is one of [fieldnames]. *)
Definition fits (fieldnames : list str) (row : dict) : Prop :=
  Forall (fun k => In k fieldnames) (keys row).

(** The record of [laptop] with its keys in another order, and without
    description. *)
Definition reordered_laptop : dict :=
  [(py "Price", py "$299"); (py "Name", py "Swift")].


(** A dictionary with no key, and one whose strings hold what the encoder
    escapes: a quote, a backslash, a line feed and a control character. *)
Definition odd_dicts : list dict :=
  [ [];
    [(py "k", [34; 92; 10; 1; 233]); ([], [])] ].

(** ** The driver

    The script under [if __name__ == '__main__'].  The network and the
    tokeniser are parameters: [requests_get] answers a request, in a
    state of the world, with a status code and a body, or raises;
    [BeautifulSoup] turns a body into a tree.  A run is described by what
    it shows (the requests it sends, the lines it prints), the files it
    leaves and how it ends. *)

Definition bytes := list N.

Inductive event : Type :=
| Requested (url : str)
| Printed (line : str)
| PrintedData (all_data : list (list dict)).

(** How a run is cut short: an exception the script does not catch, either
    one of its own operations or one of [requests.get]. *)
Inductive crash : Type :=
| Uncaught (e : exn)
| RequestFailed.

Definition base_url : str :=
  py "https://webscraper.io/test-sites/e-commerce/static/computers/laptops".

Definition saved_line : str :=
  py "All data had been saved into computers_data.csv and computers_data.json".

Definition not_saved_line : str := py "Couldn't save data into the files".

Definition no_page_line : str := py "Couldn't get the page".

Section Driver.

Variable isalnum : char -> bool.
Variable world : Type.
Variable requests_get : str -> world -> option (N * bytes) * world.
Variable BeautifulSoup : bytes -> node.

(** [get_page(url)]: the body of the response when its status is 200,
    [None] for any other status; [Failed] when the request itself raises. *)
Inductive fetched : Type :=
| Content (html : option bytes)
| Failed.

Definition get_page (url : str) (w : world) : fetched * world :=
  match requests_get url w with
  | (Some (status_code, content), w') =>
      (Content (if status_code =? 200 then Some content else None), w')
  | (None, w') => (Failed, w')
  end.

(** [BeautifulSoup(html, 'html.parser')]: [None] is no markup. *)
Definition soup_of (html : option bytes) : result node :=
  match html with
  | Some markup => Ok (BeautifulSoup markup)
  | None => Raise TypeError
  end.

Record run : Type :=
  { net : world; disk : files; shown : list event; ended : option crash }.

(** [for page in pagination_links: ...] *)
Fixpoint fetch_pages (pagination_links : list str) (all_data : list (list dict))
    (w : world) (log : list event)
  : option crash * list (list dict) * world * list event :=
  match pagination_links with
  | [] => (None, all_data, w, log)
  | page :: rest =>
      let '(html, w) := get_page page w in
      let log := log ++ [Requested page] in
      match html with
      | Failed => (Some RequestFailed, all_data, w, log)
      | Content html =>
          match soup <- soup_of html ;; parse_page soup with
          | Raise e => (Some (Uncaught e), all_data, w, log)
          | Ok page_data => fetch_pages rest (all_data ++ [page_data]) w log
          end
      end
  end.

(** The export at the end of a run that collected [all_data]. *)
Definition export (all_data : list (list dict)) (w : world) (fs : files)
    (log : list event) : run :=
  match all_data with
  | [] =>
      {| net := w; disk := fs; shown := log ++ [Printed not_saved_line];
         ended := None |}
  | _ =>
      let '(fs, r) := save_to_csv all_data csv_filename fs in
      match r with
      | Raise e => {| net := w; disk := fs; shown := log;
                      ended := Some (Uncaught e) |}
      | Ok _ =>
          let '(fs, r) := save_to_json all_data json_filename fs in
          match r with
          | Raise e => {| net := w; disk := fs; shown := log;
                          ended := Some (Uncaught e) |}
          | Ok _ => {| net := w; disk := fs;
                       shown := log ++ [Printed saved_line]; ended := None |}
          end
      end
  end.

Definition main (w : world) (fs : files) : run :=
  let all_data := [] in
  let '(html, w) := get_page base_url w in
  let log := [Requested base_url] in
  match html with
  | Failed => {| net := w; disk := fs; shown := log;
                 ended := Some RequestFailed |}
  | Content html =>
      match soup <- soup_of html ;; get_pagination_links isalnum soup base_url with
      | Raise e => {| net := w; disk := fs; shown := log;
                      ended := Some (Uncaught e) |}
      | Ok [] => {| net := w; disk := fs;
                    shown := log ++ [Printed no_page_line]; ended := None |}
      | Ok pagination_links =>
          match fetch_pages pagination_links all_data w log with
          | (Some c, _, w, log) =>
              {| net := w; disk := fs; shown := log; ended := Some c |}
          | (None, all_data, w, log) =>
              export all_data w fs (log ++ [PrintedData all_data])
          end
      end
  end.

End Driver.

Arguments net {world} r.
Arguments disk {world} r.
Arguments shown {world} r.
Arguments ended {world} r.

Section DriverVocabulary.

Variable world : Type.
Variable requests_get : str -> world -> option (N * bytes) * world.
Variable BeautifulSoup : bytes -> node.

(** From the world [w], the requests of [links], one after the other, are
    all answered with status 200, the page of each answer gives the batch
    of the same rank in [all_data], and the world is [w'] afterwards. *)
Fixpoint pages_read (links : list str) (w : world)
    (all_data : list (list dict)) (w' : world) : Prop :=
  match links, all_data with
  | [], [] => w' = w
  | page :: links, page_data :: all_data =>
      exists content w1,
        requests_get page w = (Some (200, content), w1)
        /\ parse_page (BeautifulSoup content) = Ok page_data
        /\ pages_read links w1 all_data w'
  | _, _ => False
  end.

End DriverVocabulary.

(** A network that answers every request with the same status and an
    empty body, and counts the requests. *)
Definition constant_status (status_code : N) (url : str) (count : nat)
  : option (N * bytes) * nat :=
  (Some (status_code, []), S count).

(** A listing page of the site: one card and a pagination control of two
    links. *)
Definition site_page : node :=
  document
    [ card (py "Aspire") (py " 15 inch ") (py "$499");
      Tag (py "ul") [py "pagination"] []
        [ page_link (py "/test-sites/e-commerce/static/computers/laptops?page=2");
          page_link (py "/test-sites/e-commerce/static/computers/laptops?page=3") ] ].

(** ** Cards the lookups of [parse_page] miss *)

(** A card whose elements are given one by one. *)
Definition card_of (block_name : str) (anchors : list node)
    (paragraph_classes : list str) (heading_name : str) : node :=
  Tag block_name [py "card-body"] []
    (anchors
     ++ [ Tag (py "p") paragraph_classes [] [NavigableString (py "15 inch")];
          Tag heading_name [py "price"] [] [NavigableString (py "$499")] ]).

Definition titled_anchor : node :=
  Tag (py "a") [py "title"] [(py "title", py "Aspire")] [].

Definition untitled_anchor : node :=
  Tag (py "a") [py "title"] [(py "href", py "/p/1")] [].

(** The paragraph carries the two classes, in the other order. *)
Definition card_classes_reordered : node :=
  card_of (py "div") [titled_anchor] [py "card-text"; py "description"] (py "h4").

(** The paragraph carries the two classes and a third one. *)
Definition card_third_class : node :=
  card_of (py "div") [titled_anchor]
    [py "description"; py "card-text"; py "small"] (py "h4").

(** An anchor of class [title] without title comes before the titled one. *)
Definition card_untitled_first : node :=
  card_of (py "div") [untitled_anchor; titled_anchor]
    [py "description"; py "card-text"] (py "h4").

(** The heading of class [price] is an [h3]. *)
Definition card_other_heading : node :=
  card_of (py "div") [titled_anchor] [py "description"; py "card-text"] (py "h3").

(** The block of class [card-body] is an [article]. *)
Definition card_other_block : node :=
  card_of (py "article") [titled_anchor] [py "description"; py "card-text"]
    (py "h4").

(** A dictionary without a key. *)
Definition empty_row : dict := [].

(** * Properties *)

(** ** Strings and results *)

Lemma str_eqb_eq (a b : str) : str_eqb a b = true <-> a = b.
Proof.
  revert b; induction a as [|x a IH]; intros [|y b]; simpl; split;
    try congruence; try reflexivity.
  - intros H. apply andb_true_iff in H as [Hx Hab].
    apply N.eqb_eq in Hx. apply IH in Hab. congruence.
  - intros H. injection H as -> ->. rewrite N.eqb_refl. simpl. now apply IH.
Qed.

Lemma str_eqb_refl (a : str) : str_eqb a a = true.
Proof. now apply str_eqb_eq. Qed.

Lemma str_eqb_neq (a b : str) : str_eqb a b = false <-> a <> b.
Proof.
  split.
  - intros H E. apply str_eqb_eq in E. congruence.
  - intros H. destruct (str_eqb a b) eqn:E; [|reflexivity].
    apply str_eqb_eq in E. contradiction.
Qed.

Lemma lstrip_spec (s : str) :
  exists blanks, s = blanks ++ lstrip s /\ forallb isspace blanks = true
    /\ match lstrip s with c :: _ => isspace c = false | [] => True end.
Proof.
  induction s as [|c s (blanks & E & Hb & Hh)]; simpl.
  - exists []. auto.
  - destruct (isspace c) eqn:Hc.
    + exists (c :: blanks). simpl. rewrite Hc, Hb. repeat split; auto.
      now rewrite <- E.
    + exists []. auto.
Qed.

(** [strip] removes a run of blanks at each end, and what it returns
    neither starts nor ends with a blank. *)
Lemma strip_spec (s : str) :
  exists before after,
    s = before ++ strip s ++ after
    /\ forallb isspace before = true /\ forallb isspace after = true
    /\ match strip s with c :: _ => isspace c = false | [] => True end
    /\ match rev (strip s) with c :: _ => isspace c = false | [] => True end.
Proof.
  unfold strip, rstrip.
  destruct (lstrip_spec s) as (before & E1 & Hb & Hh).
  destruct (lstrip_spec (rev (lstrip s))) as (after & E2 & Ha & Ht).
  exists before, (rev after).
  assert (E3 : lstrip s = rev (lstrip (rev (lstrip s))) ++ rev after).
  { rewrite <- rev_app_distr, <- E2. now rewrite rev_involutive. }
  repeat split.
  - now rewrite <- E3.
  - exact Hb.
  - rewrite forallb_forall in *. intros x Hx. apply Ha. now apply in_rev.
  - destruct (rev (lstrip (rev (lstrip s)))) as [|c r] eqn:Er; [exact I|].
    rewrite E3 in Hh. exact Hh.
  - rewrite rev_involutive. exact Ht.
Qed.

(** ** parse_page *)

Lemma parse_block_fields block name description price :
  block_fields block name description price ->
  parse_block block = Ok (record name (strip description) (strip price)).
Proof.
  intros (a & p & h & Ha & Hn & Hp & Hd & Hh & Hpr).
  unfold parse_block. rewrite Ha, Hp, Hh. simpl. rewrite Hn. simpl.
  now rewrite Hd, Hpr.
Qed.

Lemma parse_block_ok block d :
  parse_block block = Ok d -> record_of block d.
Proof.
  unfold parse_block, record_of, block_fields.
  destruct (find (py "a") (py "title") block) as [a|]; simpl; [|discriminate].
  destruct (dict_get (tag_attrs a) (py "title")) as [name|] eqn:Hn; simpl;
    [|discriminate].
  destruct (find (py "p") (py "description card-text") block) as [p|]; simpl;
    [|discriminate].
  destruct (find (py "h4") (py "price") block) as [h|]; simpl; [|discriminate].
  intros [= <-]. exists name, (get_text p), (get_text h). split.
  - exists a, p, h. auto 10.
  - reflexivity.
Qed.

Lemma parse_blocks_app blocks acc :
  Forall well_formed blocks ->
  exists recs, parse_blocks blocks acc = Ok (acc ++ recs)
               /\ Forall2 record_of blocks recs.
Proof.
  intros HF. revert acc.
  induction HF as [|b blocks (n & d & p & Hb) _ IH]; intros acc; simpl.
  - exists []. rewrite app_nil_r. auto.
  - rewrite (parse_block_fields _ _ _ _ Hb). simpl.
    destruct (IH (acc ++ [record n (strip d) (strip p)])) as (recs & E & H2).
    exists (record n (strip d) (strip p) :: recs). split.
    + rewrite E, <- app_assoc. reflexivity.
    + constructor; [|exact H2]. exists n, d, p. auto.
Qed.

Lemma parse_block_cases block :
  (exists d, parse_block block = Ok d /\ well_formed block)
  \/ (exists e, parse_block block = Raise e /\ lookup_error e
                /\ ~ well_formed block).
Proof.
  destruct (parse_block block) as [d|e] eqn:E.
  - left. exists d. split; [reflexivity|].
    apply parse_block_ok in E as (n & de & p & Hb & _). now exists n, de, p.
  - right. exists e. split; [reflexivity|]. split.
    + unfold parse_block, lookup_error in *.
      destruct (find (py "a") (py "title") block) as [a|]; simpl in E;
        [|injection E as <-; auto].
      destruct (dict_get (tag_attrs a) (py "title")); simpl in E;
        [|injection E as <-; auto].
      destruct (find (py "p") (py "description card-text") block); simpl in E;
        [|injection E as <-; auto].
      destruct (find (py "h4") (py "price") block); simpl in E;
        [discriminate|injection E as <-; auto].
    + intros (n & de & p & Hb).
      rewrite (parse_block_fields _ _ _ _ Hb) in E. discriminate.
Qed.

Lemma parse_blocks_raises blocks acc :
  Exists (fun b => ~ well_formed b) blocks ->
  exists e, parse_blocks blocks acc = Raise e /\ lookup_error e.
Proof.
  intros HE. revert acc. induction HE as [b blocks Hb|b blocks _ IH];
    intros acc; simpl.
  - destruct (parse_block_cases b) as [(d & _ & Hw)|(e & E & He & _)];
      [contradiction|].
    exists e. rewrite E. auto.
  - destruct (parse_block_cases b) as [(d & E & _)|(e & E & He & _)];
      rewrite E; simpl; eauto.
Qed.

Lemma parse_blocks_is_record blocks acc recs :
  Forall is_record acc -> parse_blocks blocks acc = Ok recs ->
  Forall is_record recs.
Proof.
  revert acc. induction blocks as [|b blocks IH]; intros acc Hacc; simpl.
  - now intros [= <-].
  - destruct (parse_block b) as [d|e] eqn:E; simpl; [|discriminate].
    apply IH. apply Forall_app. split; [exact Hacc|].
    apply parse_block_ok in E as (n & de & p & _ & ->).
    repeat constructor.
Qed.

(** Every dictionary [parse_page] returns has the keys [Name],
    [Description] and [Price], in this order. *)
Lemma parse_page_is_record soup recs :
  parse_page soup = Ok recs -> Forall is_record recs.
Proof. apply parse_blocks_is_record. constructor. Qed.

(** C3 as the program has it: on a page whose [N] blocks, the [div]
    elements of class [card-body], all hold an anchor of class [title],
    the first of which carries a title, a paragraph that the class filter
    [description card-text] matches (these two classes, in this order and
    no other) and a heading [h4] of class [price], [parse_page] returns
    [N] records, in document order: the name of each is the title
    attribute of that first anchor of its block, its description and price
    are the stripped texts of the first such paragraph and of the first
    such heading.  A page without such a block gives the empty list,
    without an error. *)
Theorem parse_page_records (soup : node) :
  let blocks := find_all (py "div") (py "card-body") soup in
  (Forall well_formed blocks ->
   exists recs,
     parse_page soup = Ok recs
     /\ length recs = length blocks
     /\ Forall2 record_of blocks recs)
  /\ (blocks = [] -> parse_page soup = Ok []).
Proof.
  intros blocks. split.
  - intros HF. unfold parse_page. fold blocks.
    destruct (parse_blocks_app blocks [] HF) as (recs & E & H2).
    exists recs. repeat split; [exact E| |exact H2].
    symmetry. exact (Forall2_length H2).
  - intros E. unfold parse_page. fold blocks. now rewrite E.
Qed.

Lemma missing_element_not_well_formed block :
  missing_element block -> ~ well_formed block.
Proof.
  intros [H|[H|H]] (n & d & p & a & q & h & Ha & Hn & Hp & _ & Hh & _).
  - rewrite (H a Ha) in Hn. discriminate.
  - congruence.
  - congruence.
Qed.

(** C4: when some card-body block of the page lacks one of its three
    elements, [parse_page] raises a lookup error for the whole page: it
    returns no list, so there is neither a partial record for that block
    nor a result made of the other blocks. *)
Theorem parse_page_missing_element (soup : node) :
  Exists missing_element (find_all (py "div") (py "card-body") soup) ->
  exists e, parse_page soup = Raise e /\ lookup_error e.
Proof.
  intros HE. unfold parse_page. apply parse_blocks_raises.
  apply Exists_exists in HE as (b & Hin & Hb). apply Exists_exists.
  exists b. split; [exact Hin|]. now apply missing_element_not_well_formed.
Qed.

Lemma card_fields title description price :
  block_fields (card title description price) title description price.
Proof.
  exists (Tag (py "a") [py "title"]
            [(py "href", py "/test-sites/e-commerce/static/product/31");
             (py "title", title)]
            [NavigableString title]),
         (Tag (py "p") [py "description"; py "card-text"] []
            [NavigableString description]),
         (Tag (py "h4") [py "price"; py "float-end"; py "card-title"] []
            [NavigableString price]).
  repeat split; try reflexivity; simpl; apply app_nil_r.
Qed.

Lemma parse_page_records_witness :
  exists recs,
    parse_page (document [card (py "A") (py " a ") (py "1");
                          card (py "B") (py "b") (py " 2")]) = Ok recs
    /\ length recs = 2%nat
    /\ Forall2 record_of [card (py "A") (py " a ") (py "1");
                          card (py "B") (py "b") (py " 2")] recs.
Proof.
  apply (proj1 (parse_page_records
                  (document [card (py "A") (py " a ") (py "1");
                             card (py "B") (py "b") (py " 2")]))).
  repeat constructor; eexists _, _, _; apply card_fields.
Defined.

Lemma parse_page_missing_element_witness :
  exists e,
    parse_page (document [card (py "A") (py "a") (py "1"); card_without_price])
      = Raise e /\ lookup_error e.
Proof.
  apply parse_page_missing_element.
  apply Exists_cons_tl, Exists_cons_hd. right. right. reflexivity.
Defined.

(** C3 as the specification words it fails: a block may hold a titled
    anchor of class [title], a paragraph with the classes [description]
    and [card-text] and a heading of class [price], and yet not give a
    record.  The paragraph is not found when its classes come in the
    other order or with a third one; the anchor that is read is the first
    of class [title], titled or not; the heading is not found when it is
    not an [h4]; the block is not found when it is not a [div]. *)
Lemma parse_page_records_counterexample :
  parse_page (document [card_classes_reordered]) = Raise AttributeError
  /\ parse_page (document [card_third_class]) = Raise AttributeError
  /\ parse_page (document [card_untitled_first]) = Raise KeyError
  /\ parse_page (document [card_other_heading]) = Raise AttributeError
  /\ parse_page (document [card_other_block]) = Ok [].
Proof. repeat split; reflexivity. Qed.

(** C5 as the program has it: a page with one card-body block whose anchor
    is titled [ThinkPad X1], whose description reads [ Fast laptop ] and
    whose price reads [ $999 ] gives one dictionary, with the keys [Name],
    [Description] and [Price] and the stripped values. *)
Theorem parse_page_thinkpad (soup block : node) :
  find_all (py "div") (py "card-body") soup = [block] ->
  block_fields block (py "ThinkPad X1") (py " Fast laptop ") (py " $999 ") ->
  parse_page soup
  = Ok [[(py "Name", py "ThinkPad X1");
         (py "Description", py "Fast laptop");
         (py "Price", py "$999")]].
Proof.
  intros Hb Hf. unfold parse_page. rewrite Hb. simpl.
  rewrite (parse_block_fields _ _ _ _ Hf). reflexivity.
Qed.

Lemma parse_page_thinkpad_witness :
  parse_page thinkpad_page
  = Ok [[(py "Name", py "ThinkPad X1");
         (py "Description", py "Fast laptop");
         (py "Price", py "$999")]].
Proof.
  apply (parse_page_thinkpad thinkpad_page
           (card (py "ThinkPad X1") (py " Fast laptop ") (py " $999 "))).
  - reflexivity.
  - apply card_fields.
Defined.

(** C5 as the specification words it: the keys of the dictionary are not
    [name], [description] and [price]. *)
Lemma parse_page_thinkpad_keys :
  parse_page thinkpad_page
  <> Ok [[(py "name", py "ThinkPad X1");
          (py "description", py "Fast laptop");
          (py "price", py "$999")]].
Proof. vm_compute. discriminate. Qed.

(** ** get_pagination_links *)

Section PaginationProperties.

Variable isalnum : char -> bool.

Lemma strip_prefix_app (p s r : str) :
  strip_prefix p s = Some r -> s = p ++ r.
Proof.
  revert s; induction p as [|x p IH]; intros [|y s]; simpl; try congruence.
  destruct (x =? y) eqn:E; [|discriminate].
  apply N.eqb_eq in E. subst y. intros H. now rewrite (IH _ H).
Qed.

Lemma match_host_spec (s h : str) :
  match_host isalnum s = Some h ->
  exists rest, s = h ++ py "/" ++ rest
               /\ h <> [] /\ forallb (host_char isalnum) h = true.
Proof.
  revert h; induction s as [|c t IH]; intros h; simpl; [discriminate|].
  destruct (host_char isalnum c) eqn:Hc; [|discriminate].
  destruct (match_host isalnum t) as [h'|].
  - intros [= <-]. destruct (IH h' eq_refl) as (rest & -> & _ & Hall).
    exists rest. simpl. rewrite Hc, Hall. repeat split; congruence.
  - destruct t as [|c' t']; [discriminate|].
    destruct (c' =? 47) eqn:E; [|discriminate].
    apply N.eqb_eq in E. subst c'. intros [= <-].
    exists t'. simpl. rewrite Hc. repeat split; congruence.
Qed.

Lemma match_after_scheme_spec (scheme rest g : str) :
  match_after_scheme isalnum scheme rest = Some g ->
  exists host tail,
    rest = py "://" ++ host ++ py "/" ++ tail
    /\ host <> [] /\ forallb (host_char isalnum) host = true
    /\ g = scheme ++ py "://" ++ host.
Proof.
  unfold match_after_scheme.
  destruct (strip_prefix (py "://") rest) as [r|] eqn:Hp; [|discriminate].
  destruct (match_host isalnum r) as [host|] eqn:Hh; [|discriminate].
  intros [= <-]. apply strip_prefix_app in Hp.
  destruct (match_host_spec _ _ Hh) as (tail & -> & Hne & Hall).
  exists host, tail. auto.
Qed.

(** Group 1 of a match is the scheme and the host of the address. *)
Lemma re_match_origin (url origin : str) :
  re_match isalnum url = Some origin -> origin_of isalnum url origin.
Proof.
  unfold re_match, origin_of.
  destruct (strip_prefix (py "http") url) as [[|c r]|] eqn:Hp;
    try discriminate.
  apply strip_prefix_app in Hp.
  assert (Hhttp : match_after_scheme isalnum (py "http") (c :: r) = Some origin ->
                  exists scheme host rest,
                    (scheme = py "http" \/ scheme = py "https")
                    /\ host <> [] /\ forallb (host_char isalnum) host = true
                    /\ origin = scheme ++ py "://" ++ host
                    /\ url = origin ++ py "/" ++ rest).
  { intros H. apply match_after_scheme_spec in H as (host & tail & E & Hne & Hall & ->).
    exists (py "http"), host, tail. repeat split; auto.
    rewrite Hp, E. now rewrite <- !app_assoc. }
  destruct (c =? 115) eqn:Ec; [|exact Hhttp].
  destruct (match_after_scheme isalnum (py "https") r) as [g|] eqn:Hs;
    [|exact Hhttp].
  intros [= <-]. apply N.eqb_eq in Ec. subst c.
  apply match_after_scheme_spec in Hs as (host & tail & E & Hne & Hall & ->).
  exists (py "https"), host, tail. repeat split; auto.
  rewrite Hp, E. now rewrite <- !app_assoc.
Qed.

Lemma collect_links_ok (origin : str) (links : list node) (hrefs acc : list str) :
  Forall2 has_href links hrefs ->
  collect_links (Some origin) links acc
  = Ok (acc ++ map (fun h => origin ++ h) hrefs).
Proof.
  intros H. revert acc. induction H as [|link h links hrefs Hh _ IH];
    intros acc; simpl.
  - now rewrite app_nil_r.
  - unfold has_href in Hh. rewrite Hh. simpl. rewrite IH, <- app_assoc.
    reflexivity.
Qed.

(** C1: when the page has a pagination control (a [ul] of class
    [pagination]) and the address matches the pattern, with origin
    [origin], [get_pagination_links] returns the address followed by one
    entry per anchor of class [page-link] of the control, in document
    order: the origin, which is the scheme and the host of the address,
    followed by the [href] of the anchor.  Nothing is removed: the result
    has one entry more than the control has anchors. *)
Theorem get_pagination_links_control
    (soup pagination : node) (url origin : str) (hrefs : list str) :
  find (py "ul") (py "pagination") soup = Some pagination ->
  re_match isalnum url = Some origin ->
  Forall2 has_href (find_all (py "a") (py "page-link") pagination) hrefs ->
  origin_of isalnum url origin
  /\ get_pagination_links isalnum soup url
     = Ok (url :: map (fun h => origin ++ h) hrefs)
  /\ length (url :: map (fun h => origin ++ h) hrefs)
     = S (length (find_all (py "a") (py "page-link") pagination)).
Proof.
  intros Hf Hm Hh. split; [now apply re_match_origin|]. split.
  - unfold get_pagination_links. rewrite Hf, Hm.
    now rewrite (collect_links_ok origin _ hrefs [url] Hh).
  - simpl. rewrite length_map. now rewrite (Forall2_length Hh).
Qed.

(** C2: when the page has no pagination control, [get_pagination_links]
    returns the empty list, whatever the address is, and not the list of
    the address alone. *)
Theorem get_pagination_links_no_control (soup : node) (url : str) :
  find (py "ul") (py "pagination") soup = None ->
  get_pagination_links isalnum soup url = Ok []
  /\ get_pagination_links isalnum soup url <> Ok [url].
Proof.
  intros Hf. unfold get_pagination_links. rewrite Hf. split; congruence.
Qed.

(** C10: when the address does not match the pattern,
    [get_pagination_links] still returns the empty list on a page without
    pagination control and the list of the address alone on a page whose
    control has no anchor of class [page-link]; it raises exactly when the
    control has such an anchor ([AttributeError], from the missing match,
    once the [href] of the first anchor is read). *)
Theorem get_pagination_links_no_origin (soup : node) (url : str) :
  re_match isalnum url = None ->
  (find (py "ul") (py "pagination") soup = None ->
   get_pagination_links isalnum soup url = Ok [])
  /\ (forall pagination,
        find (py "ul") (py "pagination") soup = Some pagination ->
        find_all (py "a") (py "page-link") pagination = [] ->
        get_pagination_links isalnum soup url = Ok [url])
  /\ (forall pagination link links,
        find (py "ul") (py "pagination") soup = Some pagination ->
        find_all (py "a") (py "page-link") pagination = link :: links ->
        get_pagination_links isalnum soup url
        = Raise (match dict_get (tag_attrs link) (py "href") with
                 | Some _ => AttributeError
                 | None => KeyError
                 end))
  /\ (forall e,
        get_pagination_links isalnum soup url = Raise e ->
        exists pagination link links,
          find (py "ul") (py "pagination") soup = Some pagination
          /\ find_all (py "a") (py "page-link") pagination = link :: links).
Proof.
  intros Hm. unfold get_pagination_links. rewrite Hm.
  repeat split.
  - intros ->. reflexivity.
  - intros pagination -> ->. reflexivity.
  - intros pagination link links -> ->. simpl.
    now destruct (dict_get (tag_attrs link) (py "href")).
  - intros e.
    destruct (find (py "ul") (py "pagination") soup) as [pagination|];
      [|discriminate].
    destruct (find_all (py "a") (py "page-link") pagination)
      as [|link links] eqn:Hl; [discriminate|].
    intros _. now exists pagination, link, links.
Qed.

End PaginationProperties.

Lemma get_pagination_links_control_witness :
  origin_of ascii_isalnum listing_url (py "https://example.com")
  /\ get_pagination_links ascii_isalnum paginated_page listing_url
     = Ok [listing_url;
           py "https://example.com/laptops?page=2";
           py "https://example.com/laptops?page=2"]
  /\ 3%nat = 3%nat.
Proof.
  apply (get_pagination_links_control ascii_isalnum paginated_page
           (Tag (py "ul") [py "pagination"] []
              [ page_link (py "/laptops?page=2");
                page_link (py "/laptops?page=2") ])
           listing_url (py "https://example.com")
           [py "/laptops?page=2"; py "/laptops?page=2"]).
  - reflexivity.
  - vm_compute. reflexivity.
  - repeat constructor.
Defined.

Lemma get_pagination_links_no_control_witness :
  get_pagination_links ascii_isalnum unpaginated_page listing_url = Ok []
  /\ get_pagination_links ascii_isalnum unpaginated_page listing_url
     <> Ok [listing_url].
Proof.
  apply (get_pagination_links_no_control ascii_isalnum unpaginated_page
           listing_url).
  reflexivity.
Defined.

Lemma get_pagination_links_no_origin_witness :
  get_pagination_links ascii_isalnum empty_pagination_page
    (py "https://example.com")
  = Ok [py "https://example.com"].
Proof.
  apply (proj1 (proj2 (get_pagination_links_no_origin ascii_isalnum
                         empty_pagination_page (py "https://example.com")
                         eq_refl))
           (Tag (py "ul") [py "pagination"] [] [NavigableString (py " ")])).
  - reflexivity.
  - reflexivity.
Defined.

(** ** Dictionaries *)

Lemma dict_get_set {V} (d : list (str * V)) (k k' : str) (v : V) :
  dict_get (dict_set d k v) k'
  = if str_eqb k k' then Some v else dict_get d k'.
Proof.
  induction d as [|[k0 v0] d IH]; simpl.
  - reflexivity.
  - destruct (str_eqb k0 k) eqn:E0; simpl.
    + apply str_eqb_eq in E0. subst k0.
      now destruct (str_eqb k k').
    + rewrite IH. destruct (str_eqb k0 k') eqn:E1; [|reflexivity].
      apply str_eqb_eq in E1. subst k0.
      destruct (str_eqb k k') eqn:E2; [|reflexivity].
      apply str_eqb_eq in E2. subst k'. now rewrite str_eqb_refl in E0.
Qed.

Lemma dict_get_keys {V} (d : list (str * V)) (k : str) :
  In k (map fst d) <-> dict_get d k <> None.
Proof.
  induction d as [|[k0 v0] d IH]; simpl.
  - tauto.
  - destruct (str_eqb k0 k) eqn:E.
    + apply str_eqb_eq in E. split; [congruence|auto].
    + apply str_eqb_neq in E. rewrite <- IH. tauto.
Qed.

Lemma mem_In (k : str) (l : list str) : mem k l = true <-> In k l.
Proof.
  unfold mem. rewrite existsb_exists. split.
  - intros (x & Hin & E). apply str_eqb_eq in E. now subst.
  - intros H. exists k. split; [exact H|apply str_eqb_refl].
Qed.

Lemma dict_of_zip_get (l : list str) (d : dict) (k : str) :
  dict_get (fold_left (fun d kv => dict_set d (fst kv) (snd kv)) (combine l l) d) k
  = if mem k l then Some k else dict_get d k.
Proof.
  revert d; induction l as [|x l IH]; intros d; simpl; [reflexivity|].
  rewrite IH, dict_get_set.
  destruct (mem k l); [now rewrite orb_true_r|]. rewrite orb_false_r.
  destruct (str_eqb x k) eqn:E.
  - apply str_eqb_eq in E. subst x. now rewrite str_eqb_refl.
  - apply str_eqb_neq in E.
    destruct (str_eqb k x) eqn:E'; [|reflexivity].
    apply str_eqb_eq in E'. congruence.
Qed.

(** ** save_to_csv *)

(** The header row holds the field names. *)
Lemma dict_to_list_header (fieldnames : list str) :
  dict_to_list fieldnames (dict_of (combine fieldnames fieldnames))
  = Ok fieldnames.
Proof.
  unfold dict_to_list, dict_of.
  assert (Hk : forallb (fun k => mem k fieldnames)
                 (keys (fold_left (fun d kv => dict_set d (fst kv) (snd kv))
                          (combine fieldnames fieldnames) [])) = true).
  { apply forallb_forall. intros k Hin. apply dict_get_keys in Hin.
    rewrite dict_of_zip_get in Hin.
    destruct (mem k fieldnames); [reflexivity|]. now elim Hin. }
  rewrite Hk. f_equal.
  transitivity (map (fun k => k) fieldnames); [|apply map_id].
  apply map_ext_in. intros k Hin. rewrite dict_of_zip_get.
  apply mem_In in Hin. now rewrite Hin.
Qed.

Lemma writeheader_fwrite (fieldnames : list str) :
  writeheader fieldnames = fwrite (csv_line fieldnames).
Proof. unfold writeheader, writerow. now rewrite dict_to_list_header. Qed.

Lemma dict_to_list_record (d : dict) :
  is_record d ->
  dict_to_list [py "Name"; py "Description"; py "Price"] d = Ok (values d).
Proof.
  unfold is_record, keys. intros H.
  destruct d as [|[k1 v1] [|[k2 v2] [|[k3 v3] [|? ?]]]]; try discriminate.
  simpl in H. injection H as -> -> ->. reflexivity.
Qed.

Lemma dict_to_list_no_fields (d : dict) :
  keys d <> [] -> dict_to_list [] d = Raise ValueError.
Proof.
  destruct d as [|[k v] d]; [intros H; now elim H|reflexivity].
Qed.

Lemma str_encodable_app (a b : str) :
  str_encodable (a ++ b) <-> str_encodable a /\ str_encodable b.
Proof. unfold str_encodable. rewrite forallb_app. apply andb_true_iff. Qed.

Lemma csv_field_encodable (f : str) :
  str_encodable f -> str_encodable (csv_field f).
Proof.
  intros H. unfold csv_field. destruct (existsb csv_special f); [|exact H].
  apply str_encodable_app. split; [reflexivity|].
  apply str_encodable_app. split; [|reflexivity].
  induction f as [|c f IH]; [reflexivity|].
  apply (str_encodable_app [c] f) in H as [Hc Hf].
  change (str_encodable ((if c =? 34 then [34; 34] else [c])
                         ++ flat_map (fun c => if c =? 34 then [34; 34] else [c]) f)).
  apply str_encodable_app. split; [|exact (IH Hf)].
  destruct (c =? 34); [reflexivity|exact Hc].
Qed.

Lemma join_encodable (sep : str) (parts : list str) :
  str_encodable sep -> Forall str_encodable parts ->
  str_encodable (join sep parts).
Proof.
  intros Hs H. induction H as [|p parts Hp Hps IH]; [reflexivity|].
  destruct parts as [|q parts]; [exact Hp|].
  change (str_encodable (p ++ sep ++ join sep (q :: parts))).
  rewrite !str_encodable_app. auto.
Qed.

Lemma csv_line_encodable (fields : list str) :
  Forall str_encodable fields -> str_encodable (csv_line fields).
Proof.
  intros H.
  assert (G : str_encodable (join [44] (map csv_field fields) ++ [13; 10])).
  { apply str_encodable_app. split; [|reflexivity].
    apply join_encodable; [reflexivity|].
    apply Forall_map. revert H. apply Forall_impl.
    exact csv_field_encodable. }
  destruct fields as [|[|c f] [|g fields]]; exact G.
Qed.

Lemma fwrite_encodable (chunk content : str) :
  str_encodable chunk -> fwrite chunk content = (content ++ chunk, Ok tt).
Proof. unfold fwrite, str_encodable. now intros ->. Qed.

Lemma values_encodable (d : dict) :
  dict_encodable d -> Forall str_encodable (values d).
Proof.
  unfold dict_encodable, values. intros H. apply Forall_map.
  revert H. apply Forall_impl. tauto.
Qed.

Lemma write_rows_records (rows : list dict) (content : str) :
  Forall is_record rows -> Forall dict_encodable rows ->
  write_rows [py "Name"; py "Description"; py "Price"] rows content
  = (content ++ csv_text (map values rows), Ok tt).
Proof.
  intros Hr. revert content.
  induction Hr as [|row rows Hrow _ IH]; intros content He; simpl.
  - unfold wret, csv_text. simpl. now rewrite app_nil_r.
  - inversion He as [|? ? Hrow_enc Hrows_enc]; subst.
    unfold wbind, writerow. rewrite (dict_to_list_record _ Hrow).
    rewrite fwrite_encodable
      by (apply csv_line_encodable, values_encodable; exact Hrow_enc).
    rewrite (IH _ Hrows_enc). unfold csv_text. simpl.
    now rewrite <- app_assoc.
Qed.

Lemma write_batches_records (data : list (list dict)) (content : str) :
  Forall (Forall is_record) data -> Forall (Forall dict_encodable) data ->
  write_batches [py "Name"; py "Description"; py "Price"] data content
  = (content ++ csv_text (map values (concat data)), Ok tt).
Proof.
  intros Hr. revert content.
  induction Hr as [|rows data Hrows _ IH]; intros content He; simpl.
  - unfold wret, csv_text. simpl. now rewrite app_nil_r.
  - inversion He as [|? ? Hrows_enc Hdata_enc]; subst.
    unfold wbind. rewrite (write_rows_records _ _ Hrows Hrows_enc).
    rewrite (IH _ Hdata_enc). unfold csv_text.
    now rewrite map_app, map_app, concat_app, <- app_assoc.
Qed.

(** Without field names, the first record with a key stops the export. *)
Lemma write_batches_no_fields
    (data : list (list dict)) (row : dict) (rows : list dict) (content : str) :
  concat data = row :: rows -> keys row <> [] ->
  write_batches [] data content = (content, Raise ValueError).
Proof.
  intros Hc Hk. induction data as [|batch data IH]; [discriminate|].
  simpl. unfold wbind. destruct batch as [|r batch]; simpl.
  - unfold wret. apply IH. exact Hc.
  - injection Hc as -> _. unfold wbind, writerow.
    now rewrite (dict_to_list_no_fields _ Hk).
Qed.

(** Writes only add to the text of the file. *)
Lemma fwrite_extends (chunk content : str) :
  exists more, fst (fwrite chunk content) = content ++ more.
Proof.
  unfold fwrite. destruct (forallb encodable chunk); simpl.
  - now exists chunk.
  - exists []. now rewrite app_nil_r.
Qed.

Lemma wbind_extends {A B} (m : writes A) (k : A -> writes B) :
  (forall content, exists more, fst (m content) = content ++ more) ->
  (forall a content, exists more, fst (k a content) = content ++ more) ->
  forall content, exists more, fst (wbind m k content) = content ++ more.
Proof.
  intros Hm Hk content. unfold wbind.
  destruct (Hm content) as (more & E).
  destruct (m content) as [content' [a|e]]; simpl in E; subst content'.
  - destruct (Hk a (content ++ more)) as (more' & E').
    exists (more ++ more'). now rewrite E', app_assoc.
  - now exists more.
Qed.

Lemma writerow_extends (fieldnames : list str) (row : dict) (content : str) :
  exists more, fst (writerow fieldnames row content) = content ++ more.
Proof.
  unfold writerow. destruct (dict_to_list fieldnames row).
  - apply fwrite_extends.
  - exists []. simpl. now rewrite app_nil_r.
Qed.

Lemma write_rows_extends (fieldnames : list str) (rows : list dict) (content : str) :
  exists more, fst (write_rows fieldnames rows content) = content ++ more.
Proof.
  revert content. induction rows as [|row rows IH]; intros content; simpl.
  - exists []. simpl. now rewrite app_nil_r.
  - apply wbind_extends; [apply writerow_extends|intros _; exact IH].
Qed.

Lemma write_batches_extends
    (fieldnames : list str) (data : list (list dict)) (content : str) :
  exists more, fst (write_batches fieldnames data content) = content ++ more.
Proof.
  revert content. induction data as [|rows data IH]; intros content; simpl.
  - exists []. simpl. now rewrite app_nil_r.
  - apply wbind_extends; [apply write_rows_extends|intros _; exact IH].
Qed.

(** C7: for the empty list of batches, neither exporter opens its file:
    both return without an error and leave the file store as it was. *)
Theorem save_empty_no_write (filename : str) (fs : files) :
  save_to_csv [] filename fs = (fs, Ok tt)
  /\ save_to_json [] filename fs = (fs, Ok tt).
Proof. split; reflexivity. Qed.

(** C9 as the program has it: when the first batch is empty and the first
    record of the batches after it has a key, [save_to_csv] has no field
    names: it writes the header row of no field, an empty line, then
    raises [ValueError] at that record, whose keys are not field names.
    The file holds the empty header line and no data row. *)
Theorem save_to_csv_empty_first_batch
    (rest : list (list dict)) (row : dict) (rows : list dict)
    (filename : str) (fs : files) :
  concat rest = row :: rows ->
  keys row <> [] ->
  save_to_csv ([] :: rest) filename fs
  = (fs_update fs filename (csv_line []), Raise ValueError)
  /\ csv_line [] = [13; 10].
Proof.
  intros Hc Hk. split; [|reflexivity].
  unfold save_to_csv, with_open. rewrite writeheader_fwrite.
  unfold wbind at 1. rewrite fwrite_encodable by reflexivity.
  change (write_batches [] ([] :: rest)) with (wret tt >> write_batches [] rest).
  unfold wbind, wret.
  now rewrite (write_batches_no_fields rest row rows _ Hc Hk).
Qed.

(** C6 as the program has it: when the first batch has a record, the
    records carry the keys [Name], [Description] and [Price], and UTF-8
    can encode their strings, [save_to_csv] writes the header row of
    these keys, taken from the first record of the first batch, then one
    row per record, batch after batch and in the order of each batch: as
    many data rows as the batches have records.  When the first batch is
    empty, the field names are still taken from it: there is none, and
    the header row is the empty line. *)
Theorem save_to_csv_rows
    (batch0 : list dict) (rest : list (list dict)) (filename : str) (fs : files) :
  (forall row0 rows,
     batch0 = row0 :: rows ->
     Forall (Forall is_record) (batch0 :: rest) ->
     Forall (Forall dict_encodable) (batch0 :: rest) ->
     keys row0 = [py "Name"; py "Description"; py "Price"]
     /\ save_to_csv (batch0 :: rest) filename fs
        = (fs_update fs filename
             (csv_text (keys row0 :: map values (concat (batch0 :: rest)))),
           Ok tt)
     /\ length (map values (concat (batch0 :: rest)))
        = list_sum (map (@length dict) (batch0 :: rest)))
  /\ (batch0 = [] ->
      exists more r,
        save_to_csv (batch0 :: rest) filename fs
        = (fs_update fs filename (csv_line [] ++ more), r)).
Proof.
  split.
  - intros row0 rows -> Hr He.
    assert (Hk : keys row0 = [py "Name"; py "Description"; py "Price"]).
    { inversion Hr as [|? ? Hb _]; subst. now inversion Hb. }
    split; [exact Hk|]. split.
    + unfold save_to_csv, with_open. rewrite writeheader_fwrite, Hk.
      unfold wbind at 1. rewrite fwrite_encodable by reflexivity.
      rewrite (write_batches_records _ _ Hr He). reflexivity.
    + rewrite length_map. apply length_concat.
  - intros ->. unfold save_to_csv, with_open.
    rewrite writeheader_fwrite. unfold wbind at 1.
    rewrite fwrite_encodable by reflexivity.
    destruct (write_batches_extends [] ([] :: rest) ([] ++ csv_line []))
      as (more & E).
    destruct (write_batches [] ([] :: rest) ([] ++ csv_line []))
      as [content r]. simpl in E. subst content.
    now exists more, r.
Qed.

Lemma save_to_csv_empty_first_batch_witness :
  save_to_csv [[]; []; [laptop; empty_row]; [laptop]] csv_filename no_files
  = (fs_update no_files csv_filename (csv_line []), Raise ValueError)
  /\ csv_line [] = [13; 10].
Proof.
  apply (save_to_csv_empty_first_batch [[]; [laptop; empty_row]; [laptop]]
           laptop [empty_row; laptop] csv_filename no_files).
  - reflexivity.
  - discriminate.
Defined.

(** C9 as the specification words it fails: a dictionary without a key has
    no key outside the field names.  With an empty first batch, such a
    record is written, as an empty line, and no error is raised; a record
    with a key after it raises, but the row of the first is in the
    file. *)
Lemma save_to_csv_empty_first_batch_counterexample :
  save_to_csv [[]; [empty_row]] csv_filename no_files
  = (fs_update no_files csv_filename [13; 10; 13; 10], Ok tt)
  /\ save_to_csv [[]; [empty_row; laptop]] csv_filename no_files
     = (fs_update no_files csv_filename [13; 10; 13; 10], Raise ValueError).
Proof. split; reflexivity. Qed.

Lemma save_to_csv_rows_witness :
  keys laptop = [py "Name"; py "Description"; py "Price"]
  /\ save_to_csv [[laptop]; []; [laptop; laptop]] csv_filename no_files
     = (fs_update no_files csv_filename
          (csv_text (keys laptop :: map values [laptop; laptop; laptop])),
        Ok tt)
  /\ length (map values [laptop; laptop; laptop]) = 3%nat.
Proof.
  apply (proj1 (save_to_csv_rows [laptop] [[]; [laptop; laptop]]
                  csv_filename no_files) laptop [] eq_refl).
  - repeat constructor.
  - repeat constructor.
Defined.

(** C6 as the specification words it fails: with an empty first batch the
    one record of the second batch gives no data row but an error; the
    header row of a record reads [Name,Description,Price]; and a string
    UTF-8 cannot encode stops the export after the header row. *)
Lemma save_to_csv_rows_counterexample :
  save_to_csv [[]; [laptop]] csv_filename no_files
  = (fs_update no_files csv_filename [13; 10], Raise ValueError)
  /\ (exists data_rows,
        fst (save_to_csv [[laptop]] csv_filename no_files) csv_filename
        = Some (py "Name,Description,Price" ++ [13; 10] ++ data_rows)
        /\ py "Name,Description,Price" <> py "name,description,price")
  /\ save_to_csv [[surrogate_laptop]] csv_filename no_files
     = (fs_update no_files csv_filename (py "Name,Description,Price" ++ [13; 10]),
        Raise UnicodeEncodeError).
Proof.
  split; [reflexivity|]. split; [|reflexivity].
  eexists. split; [vm_compute; reflexivity|discriminate].
Qed.

(** ** Reading back what [json.dump] wrote *)

Lemma scanstring_plain (c : char) (rest : str) :
  (c =? 34) = false -> (c =? 92) = false -> (c <? 32) = false ->
  scanstring (c :: rest) = cons_char c (scanstring rest).
Proof. intros H1 H2 H3. cbn [scanstring]. now rewrite H1, H2, H3. Qed.

Lemma scanstring_escape (esc ch : char) (rest : str) :
  (esc =? 117) = false -> backslash esc = Some ch ->
  scanstring (92 :: esc :: rest) = cons_char ch (scanstring rest).
Proof.
  intros H1 H2. cbn [scanstring].
  change (92 =? 34) with false. change (92 =? 92) with true.
  cbv iota. now rewrite H1, H2.
Qed.

Lemma hex_value_digit (n : N) : n < 16 -> hex_value (hex_digit n) = Some n.
Proof.
  intros H. unfold hex_digit, hex_value.
  destruct (n <? 10) eqn:E.
  - apply N.ltb_lt in E.
    replace ((48 <=? 48 + n) && (48 + n <=? 57)) with true.
    + f_equal. lia.
    + symmetry. apply andb_true_iff. split; apply N.leb_le; lia.
  - apply N.ltb_ge in E.
    replace ((48 <=? 87 + n) && (87 + n <=? 57)) with false.
    + replace ((97 <=? 87 + n) && (87 + n <=? 102)) with true.
      * f_equal. lia.
      * symmetry. apply andb_true_iff. split; apply N.leb_le; lia.
    + symmetry. apply andb_false_iff. right. apply N.leb_gt. lia.
Qed.

Lemma scanstring_control (c : char) (rest : str) :
  c < 32 ->
  scanstring (92 :: 117 :: 48 :: 48 :: hex_digit (c / 16) :: hex_digit (c mod 16) :: rest)
  = cons_char c (scanstring rest).
Proof.
  intros H. cbn [scanstring].
  change (92 =? 34) with false. change (92 =? 92) with true.
  change (117 =? 117) with true. cbv iota.
  assert (Hd : c / 16 < 16).
  { apply N.Div0.div_lt_upper_bound. lia. }
  assert (Hm : c mod 16 < 16) by (apply N.mod_lt; lia).
  unfold decode_uXXXX. change (hex_value 48) with (Some 0).
  rewrite (hex_value_digit _ Hd), (hex_value_digit _ Hm).
  assert (E : ((0 * 16 + 0) * 16 + c / 16) * 16 + c mod 16 = c).
  { rewrite (N.div_mod c 16) at 3 by lia. lia. }
  rewrite E.
  replace (55296 <=? c) with false; [reflexivity|].
  symmetry. apply N.leb_gt. lia.
Qed.

Lemma scanstring_json_escape (c : char) (rest : str) :
  scanstring (json_escape c ++ rest) = cons_char c (scanstring rest).
Proof.
  unfold json_escape.
  destruct (c =? 34) eqn:E34.
  { apply N.eqb_eq in E34. subst c. reflexivity. }
  destruct (c =? 92) eqn:E92.
  { apply N.eqb_eq in E92. subst c. reflexivity. }
  destruct (c =? 10) eqn:E10.
  { apply N.eqb_eq in E10. subst c. reflexivity. }
  destruct (c =? 13) eqn:E13.
  { apply N.eqb_eq in E13. subst c. reflexivity. }
  destruct (c =? 9) eqn:E9.
  { apply N.eqb_eq in E9. subst c. reflexivity. }
  destruct (c =? 8) eqn:E8.
  { apply N.eqb_eq in E8. subst c. reflexivity. }
  destruct (c =? 12) eqn:E12.
  { apply N.eqb_eq in E12. subst c. reflexivity. }
  destruct (c <? 32) eqn:E32.
  - apply N.ltb_lt in E32. exact (scanstring_control c rest E32).
  - now apply scanstring_plain.
Qed.

(** The scanner undoes the escaping of the encoder, up to the closing
    quote. *)
Lemma scanstring_escaped (s rest : str) :
  scanstring (flat_map json_escape s ++ 34 :: rest) = Ok (s, rest).
Proof.
  induction s as [|c s IH]; [reflexivity|].
  change (flat_map json_escape (c :: s))
    with (json_escape c ++ flat_map json_escape s).
  rewrite <- app_assoc, scanstring_json_escape, IH. reflexivity.
Qed.

Lemma scanstring_encoded (s rest : str) :
  exists body, encode_basestring s ++ rest = 34 :: body
               /\ scanstring body = Ok (s, rest).
Proof.
  exists (flat_map json_escape s ++ 34 :: rest). split.
  - unfold encode_basestring. simpl. now rewrite <- app_assoc.
  - apply scanstring_escaped.
Qed.

Lemma skip_ws_other (c : char) (rest : str) :
  is_ws c = false -> skip_ws (c :: rest) = c :: rest.
Proof. intros H. cbn [skip_ws]. now rewrite H. Qed.

Lemma skip_ws_indent (level : nat) (rest : str) :
  skip_ws (concat (repeat (py "    ") level) ++ rest) = skip_ws rest.
Proof. induction level as [|level IH]; [reflexivity|exact IH]. Qed.

Lemma skip_ws_newline_indent (level : nat) (rest : str) :
  skip_ws (newline_indent level ++ rest) = skip_ws rest.
Proof. exact (skip_ws_indent level rest). Qed.

Lemma encode_basestring_cons (s rest : str) :
  encode_basestring s ++ rest = 34 :: flat_map json_escape s ++ 34 :: rest.
Proof. unfold encode_basestring. simpl. now rewrite <- app_assoc. Qed.

Lemma skip_ws_encoded (s rest : str) :
  skip_ws (encode_basestring s ++ rest) = encode_basestring s ++ rest.
Proof. rewrite encode_basestring_cons. now apply skip_ws_other. Qed.

Lemma object_loop_step (scan : str -> result (json * str)) (n : nat)
    (k v rest : str) (pairs : list (str * json)) :
  scan (encode_basestring v ++ rest) = Ok (JString v, rest) ->
  object_loop scan (S n)
    (flat_map json_escape k ++ 34 :: py ": " ++ encode_basestring v ++ rest) pairs
  = match skip_ws rest with
    | c :: s2 =>
        if c =? 125 then Ok (pairs ++ [(k, JString v)], s2)
        else if c =? 44 then
          match skip_ws s2 with
          | q :: s3 =>
              if q =? 34 then object_loop scan n s3 (pairs ++ [(k, JString v)])
              else Raise JSONDecodeError
          | [] => Raise JSONDecodeError
          end
        else Raise JSONDecodeError
    | [] => Raise JSONDecodeError
    end.
Proof.
  intros Hs. cbn [object_loop]. rewrite scanstring_escaped. cbn [bind fst snd].
  change (py ": " ++ encode_basestring v ++ rest)
    with (58 :: 32 :: encode_basestring v ++ rest).
  rewrite (skip_ws_other 58) by reflexivity.
  change (58 =? 58) with true. cbv iota.
  change (skip_ws (32 :: encode_basestring v ++ rest))
    with (skip_ws (encode_basestring v ++ rest)).
  rewrite skip_ws_encoded, Hs. reflexivity.
Qed.

Lemma concat_items_cons (k v : str) (items : dict) (first : bool) (sep : str) :
  concat (iterencode_items ((k, v) :: items) first sep)
  = (if first then [] else sep)
    ++ encode_basestring k ++ py ": " ++ encode_basestring v
    ++ concat (iterencode_items items false sep).
Proof.
  cbn [iterencode_items]. rewrite concat_app.
  destruct first; cbn [concat app]; rewrite ?app_nil_r, <- ?app_assoc; reflexivity.
Qed.

Section ObjectText.

Variable scan : str -> result (json * str).
Hypothesis scan_string :
  forall v rest, scan (encode_basestring v ++ rest) = Ok (JString v, rest).

Lemma object_loop_items (level : nat) (items : dict) :
  forall (k v : str) (pairs : list (str * json)) (n : nat) (tail : str),
    (length items < n)%nat ->
    object_loop scan n
      (flat_map json_escape k ++ 34 :: py ": " ++ encode_basestring v
       ++ concat (iterencode_items items false ([44] ++ newline_indent (S level)))
       ++ newline_indent level ++ 125 :: tail)
      pairs
    = Ok (pairs ++ map json_pair ((k, v) :: items), tail).
Proof.
  induction items as [|[k2 v2] items IH]; intros k v pairs n tail Hn;
    (destruct n as [|n]; [inversion Hn|]);
    rewrite object_loop_step by apply scan_string.
  - cbn [iterencode_items concat app].
    rewrite skip_ws_newline_indent, skip_ws_other by reflexivity.
    reflexivity.
  - rewrite concat_items_cons. cbv iota.
    rewrite <- !app_assoc. cbn [app].
    rewrite skip_ws_other by reflexivity.
    change (44 =? 125) with false. change (44 =? 44) with true. cbv iota.
    rewrite skip_ws_newline_indent, skip_ws_encoded, encode_basestring_cons.
    change (34 =? 34) with true. cbv iota.
    assert (Hn' : (length items < n)%nat) by (simpl in Hn; lia).
    etransitivity; [exact (IH k2 v2 _ n tail Hn')|].
    now rewrite <- app_assoc.
Qed.

End ObjectText.

Lemma length_items (items : dict) (first : bool) (sep : str) :
  (length items <= length (concat (iterencode_items items first sep)))%nat.
Proof.
  revert first. induction items as [|[k v] items IH]; intros first; [apply le_n|].
  rewrite concat_items_cons, !length_app. specialize (IH false).
  change (length (py ": ")) with 2%nat. simpl length at 1. lia.
Qed.

Lemma iterencode_dict_text (level : nat) (d : dict) (tail : str) :
  concat (iterencode_dict d level) ++ tail = 123 :: dict_body level d tail.
Proof.
  destruct d as [|kv items]; [reflexivity|].
  unfold iterencode_dict, dict_body.
  rewrite concat_app. cbn [concat]. rewrite concat_app. cbn [concat].
  rewrite app_nil_r, <- !app_assoc. reflexivity.
Qed.

Section DictText.

Variable scan : str -> result (json * str).
Hypothesis scan_string :
  forall v rest, scan (encode_basestring v ++ rest) = Ok (JString v, rest).

Lemma JSONObject_dict (level : nat) (d : dict) (tail : str) :
  JSONObject scan (dict_body level d tail)
  = Ok (JObject (dict_of (map json_pair d)), tail).
Proof.
  destruct d as [|[k v] items]; [reflexivity|].
  unfold JSONObject, dict_body.
  rewrite concat_items_cons. cbv iota. cbn [app].
  rewrite <- !app_assoc.
  rewrite skip_ws_newline_indent, skip_ws_encoded, !(encode_basestring_cons k).
  change (34 =? 125) with false. change (34 =? 34) with true. cbv iota.
  rewrite (object_loop_items scan scan_string level items k v []).
  - reflexivity.
  - pose proof (length_items items false ([44] ++ newline_indent (S level))) as H.
    cbn [app] in H.
    repeat (rewrite length_app || cbn [length]). lia.
Qed.

End DictText.

Lemma scan_once_eq (depth : nat) (c : char) (rest : str) :
  scan_once (S depth) (c :: rest)
  = if c =? 34 then p <- scanstring rest ;; Ok (JString (fst p), snd p)
    else if c =? 123 then JSONObject (scan_once depth) rest
    else if c =? 91 then JSONArray (scan_once depth) rest
    else Raise JSONDecodeError.
Proof. reflexivity. Qed.

Lemma scan_once_string (depth : nat) (v rest : str) :
  scan_once (S depth) (encode_basestring v ++ rest) = Ok (JString v, rest).
Proof.
  rewrite encode_basestring_cons, scan_once_eq, scanstring_escaped.
  reflexivity.
Qed.

Lemma scan_once_dict (depth level : nat) (d : dict) (tail : str) :
  scan_once (S (S depth)) (concat (iterencode_dict d level) ++ tail)
  = Ok (JObject (dict_of (map json_pair d)), tail).
Proof.
  rewrite iterencode_dict_text, scan_once_eq.
  change (123 =? 34) with false. change (123 =? 123) with true. cbv iota.
  apply JSONObject_dict. apply scan_once_string.
Qed.

Lemma concat_values_cons (d : dict) (lst : list dict) (buf sep : str) (level : nat) :
  concat (iterencode_values (d :: lst) buf sep level)
  = buf ++ concat (iterencode_dict d level)
    ++ concat (iterencode_values lst sep sep level).
Proof.
  cbn [iterencode_values]. rewrite !concat_app. cbn [concat].
  now rewrite app_nil_r.
Qed.

Lemma length_values (lst : list dict) (buf sep : str) (level : nat) :
  (length lst <= length (concat (iterencode_values lst buf sep level)))%nat.
Proof.
  revert buf. induction lst as [|d lst IH]; intros buf; [apply le_n|].
  rewrite concat_values_cons, !length_app. specialize (IH sep).
  assert (H : (1 <= length (concat (iterencode_dict d level)))%nat).
  { pose proof (iterencode_dict_text level d []) as E. rewrite app_nil_r in E.
    rewrite E. cbn [length]. lia. }
  cbn [length]. lia.
Qed.

Section ArrayText.

Variable scan : str -> result (json * str).
Variable level : nat.
Hypothesis scan_dict :
  forall d tail, scan (concat (iterencode_dict d (S level)) ++ tail)
                 = Ok (JObject (dict_of (map json_pair d)), tail).

Lemma array_loop_values (lst : list dict) :
  forall (d : dict) (values : list json) (n : nat) (tail : str),
    (length lst < n)%nat ->
    array_loop scan n
      (concat (iterencode_dict d (S level))
       ++ concat (iterencode_values lst ([44] ++ newline_indent (S level))
                    ([44] ++ newline_indent (S level)) (S level))
       ++ newline_indent level ++ 93 :: tail)
      values
    = Ok (values ++ map json_dict (d :: lst), tail).
Proof.
  induction lst as [|d2 lst IH]; intros d values n tail Hn;
    (destruct n as [|n]; [inversion Hn|]);
    cbn [array_loop]; rewrite scan_dict; cbn [bind fst snd].
  - cbn [iterencode_values concat app].
    rewrite skip_ws_newline_indent, skip_ws_other by reflexivity.
    reflexivity.
  - rewrite concat_values_cons, <- !app_assoc. cbn [app].
    rewrite skip_ws_other by reflexivity.
    change (44 =? 93) with false. change (44 =? 44) with true. cbv iota.
    rewrite skip_ws_newline_indent, iterencode_dict_text.
    rewrite skip_ws_other by reflexivity.
    rewrite <- iterencode_dict_text.
    assert (Hn' : (length lst < n)%nat) by (simpl in Hn; lia).
    etransitivity; [exact (IH d2 _ n tail Hn')|].
    now rewrite <- app_assoc.
Qed.

End ArrayText.

Lemma dict_set_fresh {V} (d : list (str * V)) (k : str) (v : V) :
  ~ In k (map fst d) -> dict_set d k v = d ++ [(k, v)].
Proof.
  induction d as [|[k0 v0] d IH]; intros H; [reflexivity|].
  simpl in *. destruct (str_eqb k0 k) eqn:E.
  - apply str_eqb_eq in E. tauto.
  - rewrite IH by tauto. reflexivity.
Qed.

Lemma dict_of_from_nodup {V} (pairs acc : list (str * V)) :
  NoDup (map fst (acc ++ pairs)) ->
  fold_left (fun d kv => dict_set d (fst kv) (snd kv)) pairs acc = acc ++ pairs.
Proof.
  revert acc. induction pairs as [|[k v] pairs IH]; intros acc H; simpl.
  - now rewrite app_nil_r.
  - rewrite dict_set_fresh.
    + rewrite IH; rewrite <- app_assoc; [reflexivity|exact H].
    + rewrite map_app in H. simpl in H. apply NoDup_remove_2 in H.
      intros Hin. apply H. apply in_or_app. now left.
Qed.

Lemma dict_of_nodup {V} (pairs : list (str * V)) :
  NoDup (map fst pairs) -> dict_of pairs = pairs.
Proof. intros H. exact (dict_of_from_nodup pairs [] H). Qed.

Lemma json_dict_nodup (d : dict) :
  NoDup (keys d) -> json_dict d = json_of_dict d.
Proof.
  intros H. unfold json_dict, json_of_dict. f_equal.
  apply dict_of_nodup. unfold json_pair. rewrite map_map. exact H.
Qed.

Lemma iterencode_list_text (d : dict) (lst : list dict) :
  concat (iterencode_list (d :: lst) 0)
  = 91 :: newline_indent 1 ++ concat (iterencode_dict d 1)
    ++ concat (iterencode_values lst ([44] ++ newline_indent 1)
                 ([44] ++ newline_indent 1) 1)
    ++ newline_indent 0 ++ [93].
Proof.
  unfold iterencode_list. rewrite concat_app, concat_values_cons.
  rewrite <- !app_assoc. reflexivity.
Qed.

Lemma scan_once_list (depth : nat) (d : dict) (lst : list dict) :
  scan_once (S (S (S depth))) (concat (iterencode_list (d :: lst) 0))
  = Ok (JArray (map json_dict (d :: lst)), []).
Proof.
  rewrite iterencode_list_text, scan_once_eq.
  change (91 =? 34) with false. change (91 =? 123) with false.
  change (91 =? 91) with true. cbv iota.
  unfold JSONArray.
  rewrite skip_ws_newline_indent, iterencode_dict_text.
  rewrite skip_ws_other by reflexivity.
  change (123 =? 93) with false. cbv iota.
  rewrite <- !iterencode_dict_text.
  rewrite (array_loop_values (scan_once (S (S depth))) 0
             (fun d tail => scan_once_dict depth 1 d tail) lst d [] _ []).
  - reflexivity.
  - pose proof (length_values lst ([44] ++ newline_indent 1)
                  ([44] ++ newline_indent 1) 1) as H.
    repeat (rewrite length_app || cbn [length]). lia.
Qed.

(** The text [json.dump] writes reads back as the list it was given. *)
Lemma json_loads_dump (lst : list dict) :
  Forall (fun d => NoDup (keys d)) lst ->
  json_loads (concat (iterencode_list lst 0)) = Ok (json_of_records lst).
Proof.
  intros Hk. destruct lst as [|d lst]; [reflexivity|].
  unfold json_loads.
  assert (Hl : exists depth,
             length (concat (iterencode_list (d :: lst) 0)) = S (S (S depth))).
  { rewrite iterencode_list_text. cbn [length]. rewrite length_app.
    change (length (newline_indent 1)) with 5%nat.
    eexists. simpl. reflexivity. }
  destruct Hl as (depth & ->).
  assert (Hs : skip_ws (concat (iterencode_list (d :: lst) 0))
               = concat (iterencode_list (d :: lst) 0)).
  { rewrite iterencode_list_text. now apply skip_ws_other. }
  rewrite Hs, scan_once_list. cbn [bind fst snd skip_ws].
  unfold json_of_records. do 2 f_equal.
  apply map_ext_in. intros r Hr. apply json_dict_nodup.
  rewrite Forall_forall in Hk. now apply Hk.
Qed.

Lemma write_chunks_encodable (chunks : list str) (content : str) :
  Forall str_encodable chunks ->
  write_chunks chunks content = (content ++ concat chunks, Ok tt).
Proof.
  intros H. revert content. induction H as [|chunk chunks Hc _ IH];
    intros content; simpl.
  - unfold wret. now rewrite app_nil_r.
  - unfold wbind. rewrite (fwrite_encodable _ _ Hc), IH.
    now rewrite <- app_assoc.
Qed.

Lemma json_escape_encodable (c : char) :
  encodable c = true -> str_encodable (json_escape c).
Proof.
  intros H. unfold json_escape.
  repeat match goal with
         | |- context [if ?b then _ else _] => destruct b eqn:?; [reflexivity|]
         end.
  destruct (c <? 32) eqn:E.
  - apply N.ltb_lt in E.
    assert (Hh : forall n, n < 16 -> encodable (hex_digit n) = true).
    { intros n Hn. unfold hex_digit, encodable.
      destruct (n <? 10); apply orb_true_iff; left; apply N.ltb_lt; lia. }
    unfold str_encodable. cbn [forallb].
    rewrite !Hh; [reflexivity| |].
    + apply N.mod_lt. lia.
    + apply N.Div0.div_lt_upper_bound. lia.
  - unfold str_encodable. simpl. now rewrite H.
Qed.

Lemma encode_basestring_encodable (s : str) :
  str_encodable s -> str_encodable (encode_basestring s).
Proof.
  intros H. unfold encode_basestring.
  apply str_encodable_app. split; [reflexivity|].
  apply str_encodable_app. split; [|reflexivity].
  induction s as [|c s IH]; [reflexivity|].
  apply (str_encodable_app [c] s) in H as [Hc Hs].
  change (str_encodable (json_escape c ++ flat_map json_escape s)).
  apply str_encodable_app. split; [|exact (IH Hs)].
  apply json_escape_encodable. unfold str_encodable in Hc. simpl in Hc.
  now rewrite andb_true_r in Hc.
Qed.

Lemma newline_indent_encodable (level : nat) :
  str_encodable (newline_indent level).
Proof.
  unfold newline_indent. apply (str_encodable_app [10]). split; [reflexivity|].
  induction level as [|level IH]; [reflexivity|].
  cbn [repeat concat]. apply str_encodable_app. split; [reflexivity|exact IH].
Qed.

Lemma iterencode_items_encodable (items : dict) (first : bool) (sep : str) :
  str_encodable sep -> dict_encodable items ->
  Forall str_encodable (iterencode_items items first sep).
Proof.
  intros Hs H. revert first.
  induction H as [|[k v] items [Hk Hv] _ IH]; intros first; cbn [iterencode_items].
  - constructor.
  - apply Forall_app. split; [destruct first; repeat constructor; exact Hs|].
    apply Forall_app. split; [|apply IH].
    repeat constructor; try reflexivity; now apply encode_basestring_encodable.
Qed.

Lemma iterencode_dict_encodable (d : dict) (level : nat) :
  dict_encodable d -> Forall str_encodable (iterencode_dict d level).
Proof.
  intros H. destruct d as [|kv items]; [repeat constructor|].
  unfold iterencode_dict. apply Forall_app. split.
  - repeat constructor. apply newline_indent_encodable.
  - apply Forall_app. split.
    + apply iterencode_items_encodable; [|exact H].
      apply (str_encodable_app [44]). split; [reflexivity|].
      apply newline_indent_encodable.
    + repeat constructor. apply newline_indent_encodable.
Qed.

Lemma iterencode_values_encodable (lst : list dict) (buf sep : str) (level : nat) :
  str_encodable buf -> str_encodable sep -> Forall dict_encodable lst ->
  Forall str_encodable (iterencode_values lst buf sep level).
Proof.
  intros Hb Hs H. revert buf Hb.
  induction H as [|d lst Hd _ IH]; intros buf Hb; cbn [iterencode_values].
  - constructor.
  - apply Forall_app. split; [repeat constructor; exact Hb|].
    apply Forall_app. split; [now apply iterencode_dict_encodable|].
    now apply IH.
Qed.

Lemma iterencode_list_encodable (lst : list dict) (level : nat) :
  Forall dict_encodable lst -> Forall str_encodable (iterencode_list lst level).
Proof.
  intros H. destruct lst as [|d lst]; [repeat constructor|].
  unfold iterencode_list. apply Forall_app. split.
  - apply iterencode_values_encodable; [| |exact H].
    + apply (str_encodable_app [91]). split; [reflexivity|].
      apply newline_indent_encodable.
    + apply (str_encodable_app [44]). split; [reflexivity|].
      apply newline_indent_encodable.
  - repeat constructor. apply newline_indent_encodable.
Qed.

Lemma filter_json_escape (c : char) :
  filter non_ascii (json_escape c) = filter non_ascii [c].
Proof.
  unfold json_escape.
  repeat match goal with
         | |- context [if (c =? ?k) then _ else _] =>
             let E := fresh "E" in
             destruct (c =? k) eqn:E;
             [apply N.eqb_eq in E; subst c; reflexivity|]
         end.
  destruct (c <? 32) eqn:E32; [|reflexivity].
  apply N.ltb_lt in E32.
  assert (Hh : forall n, n < 16 -> non_ascii (hex_digit n) = false).
  { intros n Hn. unfold hex_digit, non_ascii.
    destruct (n <? 10); apply N.ltb_ge; lia. }
  assert (Hc : non_ascii c = false) by (apply N.ltb_ge; lia).
  cbn [filter]. change (non_ascii 92) with false.
  change (non_ascii 117) with false. change (non_ascii 48) with false.
  rewrite !Hh, Hc; [reflexivity| |].
  - apply N.mod_lt. lia.
  - apply N.Div0.div_lt_upper_bound. lia.
Qed.

Lemma filter_encode_basestring (s : str) :
  filter non_ascii (encode_basestring s) = filter non_ascii s.
Proof.
  unfold encode_basestring. rewrite !filter_app.
  change (filter non_ascii [34]) with (@nil char).
  rewrite app_nil_r. cbn [app].
  induction s as [|c s IH]; [reflexivity|].
  change (flat_map json_escape (c :: s)) with (json_escape c ++ flat_map json_escape s).
  rewrite filter_app, filter_json_escape, IH.
  change (c :: s) with ([c] ++ s). now rewrite filter_app.
Qed.

Lemma filter_newline_indent (level : nat) :
  filter non_ascii (newline_indent level) = [].
Proof.
  unfold newline_indent. cbn [filter]. change (non_ascii 10) with false.
  cbv iota. induction level as [|level IH]; [reflexivity|].
  cbn [repeat concat]. rewrite filter_app, IH. reflexivity.
Qed.

Lemma filter_separator (level : nat) :
  filter non_ascii ([44] ++ newline_indent level) = [].
Proof. rewrite filter_app, filter_newline_indent. reflexivity. Qed.

Lemma filter_items (items : dict) (first : bool) (level : nat) :
  filter non_ascii
    (concat (iterencode_items items first ([44] ++ newline_indent level)))
  = filter non_ascii (concat (flat_map (fun kv => [fst kv; snd kv]) items)).
Proof.
  revert first. induction items as [|[k v] items IH]; intros first; [reflexivity|].
  rewrite concat_items_cons, !filter_app, !filter_encode_basestring, IH.
  change (filter non_ascii (py ": ")) with (@nil char).
  assert (Hsep : filter non_ascii
                   (if first then [] else [44] ++ newline_indent level) = []).
  { destruct first; [reflexivity|apply filter_separator]. }
  rewrite Hsep. cbn [flat_map fst snd app concat]. now rewrite !filter_app.
Qed.

Lemma filter_dict (d : dict) (level : nat) :
  filter non_ascii (concat (iterencode_dict d level))
  = filter non_ascii (concat (flat_map (fun kv => [fst kv; snd kv]) d)).
Proof.
  destruct d as [|kv items]; [reflexivity|].
  unfold iterencode_dict. rewrite !concat_app, !filter_app, filter_items.
  cbn [concat]. rewrite !filter_app, !filter_newline_indent.
  change (filter non_ascii (py "{")) with (@nil char).
  change (filter non_ascii (py "}")) with (@nil char).
  cbn [filter app]. now rewrite app_nil_r.
Qed.

Lemma filter_values (lst : list dict) (buf : str) (level : nat) :
  filter non_ascii buf = [] ->
  filter non_ascii
    (concat (iterencode_values lst buf ([44] ++ newline_indent level) level))
  = filter non_ascii (concat (strings_of lst)).
Proof.
  revert buf. induction lst as [|d lst IH]; intros buf Hb; [reflexivity|].
  rewrite concat_values_cons, !filter_app, Hb, filter_dict.
  rewrite (IH _ (filter_separator level)).
  unfold strings_of. cbn [flat_map app]. now rewrite concat_app, filter_app.
Qed.

(** The text of the file holds the non-ASCII characters of the keys and
    values, and no other. *)
Lemma filter_list (lst : list dict) :
  filter non_ascii (concat (iterencode_list lst 0))
  = filter non_ascii (concat (strings_of lst)).
Proof.
  destruct lst as [|d lst]; [reflexivity|].
  unfold iterencode_list. rewrite concat_app, filter_app.
  rewrite (filter_values (d :: lst) _ 1).
  - cbn [concat]. rewrite !filter_app, filter_newline_indent.
    change (filter non_ascii (py "]")) with (@nil char).
    cbn [filter app]. now rewrite app_nil_r.
  - rewrite filter_app, filter_newline_indent. reflexivity.
Qed.

Lemma is_record_nodup (d : dict) : is_record d -> NoDup (keys d).
Proof.
  unfold is_record. intros ->.
  repeat constructor; cbv; intuition discriminate.
Qed.

(** C8 as the program has it: for a list of batches that is not empty,
    whose records carry the keys [Name], [Description] and [Price] and
    whose strings UTF-8 can encode, [save_to_json] writes one text to the
    file; read back, the text is the array of all the records, batch after
    batch and in the order of each batch, each an object of the keys and
    values of the record; and the characters outside ASCII of the text
    are those of the keys and values, as they are and in their order. *)
Theorem save_to_json_round_trip
    (data : list (list dict)) (filename : str) (fs : files) :
  data <> [] ->
  Forall (Forall is_record) data ->
  Forall (Forall dict_encodable) data ->
  exists text,
    save_to_json data filename fs = (fs_update fs filename text, Ok tt)
    /\ json_loads text = Ok (json_of_records (concat data))
    /\ filter non_ascii text
       = filter non_ascii (concat (strings_of (concat data))).
Proof.
  intros Hne Hr He.
  exists (concat (iterencode_list (concat data) 0)). split; [|split].
  - destruct data as [|batch data]; [congruence|].
    unfold save_to_json, with_open, json_dump.
    rewrite write_chunks_encodable; [reflexivity|].
    apply iterencode_list_encodable. now apply Forall_concat.
  - apply json_loads_dump. apply Forall_concat in Hr.
    revert Hr. apply Forall_impl. exact is_record_nodup.
  - apply filter_list.
Qed.

Lemma save_to_json_round_trip_witness :
  exists text,
    save_to_json [[laptop]; []; [laptop]] json_filename no_files
    = (fs_update no_files json_filename text, Ok tt)
    /\ json_loads text = Ok (json_of_records [laptop; laptop])
    /\ filter non_ascii text
       = filter non_ascii (concat (strings_of [laptop; laptop])).
Proof.
  apply (save_to_json_round_trip [[laptop]; []; [laptop]] json_filename no_files).
  - discriminate.
  - repeat constructor.
  - repeat constructor.
Defined.

(** C8 as the specification words it fails: the objects of the file have
    the keys [Name], [Description] and [Price], not [name], [description]
    and [price]; and a string UTF-8 cannot encode stops the export in the
    middle of the text, which then does not read back. *)
Lemma save_to_json_round_trip_counterexample :
  (exists text,
     fst (save_to_json [[laptop]] json_filename no_files) json_filename
     = Some text
     /\ json_loads text
        = Ok (JArray [JObject [(py "Name", JString (py "Aspire"));
                               (py "Description", JString (py "15 inch, 8GB"));
                               (py "Price", JString (py "$499"))]])
     /\ json_loads text
        <> Ok (JArray [JObject [(py "name", JString (py "Aspire"));
                                (py "description", JString (py "15 inch, 8GB"));
                                (py "price", JString (py "$499"))]]))
  /\ (exists text,
        save_to_json [[surrogate_laptop]] json_filename no_files
        = (fs_update no_files json_filename text, Raise UnicodeEncodeError)
        /\ json_loads text = Raise JSONDecodeError).
Proof.
  split.
  - eexists. split; [vm_compute; reflexivity|].
    split; [vm_compute; reflexivity|vm_compute; discriminate].
  - eexists. split; [vm_compute; reflexivity|vm_compute; reflexivity].
Qed.

(** * Further properties of the program *)

(** ** parse_page *)

Lemma strip_stripped (s : str) : stripped (strip s).
Proof.
  destruct (strip_spec s) as (before & after & _ & _ & _ & Hh & Ht).
  split; assumption.
Qed.

Lemma parse_blocks_stripped blocks acc recs :
  Forall (fun r => exists n d p, r = record n d p /\ stripped d /\ stripped p) acc ->
  parse_blocks blocks acc = Ok recs ->
  Forall (fun r => exists n d p, r = record n d p /\ stripped d /\ stripped p) recs.
Proof.
  revert acc. induction blocks as [|b blocks IH]; intros acc Hacc; simpl.
  - now intros [= <-].
  - destruct (parse_block b) as [d|e] eqn:E; simpl; [|discriminate].
    apply IH. apply Forall_app. split; [exact Hacc|].
    apply parse_block_ok in E as (n & de & p & _ & ->).
    repeat constructor. exists n, (strip de), (strip p).
    repeat split; apply strip_stripped.
Qed.

(** X1: every dictionary [parse_page] returns has the three keys [Name],
    [Description] and [Price], in this order, and its description and
    price neither start nor end with a blank. *)
Theorem parse_page_stripped (soup : node) (recs : list dict) :
  parse_page soup = Ok recs ->
  Forall (fun r => exists n d p, r = record n d p /\ stripped d /\ stripped p)
    recs.
Proof. apply parse_blocks_stripped. constructor. Qed.

Lemma parse_page_stripped_witness :
  Forall (fun r => exists n d p, r = record n d p /\ stripped d /\ stripped p)
    [record (py "ThinkPad X1") (py "Fast laptop") (py "$999")].
Proof. apply (parse_page_stripped thinkpad_page). reflexivity. Defined.

Lemma parse_block_missing (block : node) :
  missing_element block -> parse_block block = Raise (block_error block).
Proof.
  unfold missing_element, parse_block, block_error.
  destruct (find (py "a") (py "title") block) as [a|]; simpl; [|reflexivity].
  destruct (dict_get (tag_attrs a) (py "title")) as [t|] eqn:Ht; simpl;
    [|reflexivity].
  intros [H|[H|H]].
  - specialize (H a eq_refl). congruence.
  - now rewrite H.
  - rewrite H.
    now destruct (find (py "p") (py "description card-text") block).
Qed.

Lemma parse_blocks_first_missing good bad rest acc :
  Forall well_formed good -> missing_element bad ->
  parse_blocks (good ++ bad :: rest) acc = Raise (block_error bad).
Proof.
  intros Hg Hb. revert acc.
  induction Hg as [|b good (n & d & p & Hf) _ IH]; intros acc; simpl.
  - now rewrite (parse_block_missing _ Hb).
  - rewrite (parse_block_fields _ _ _ _ Hf). simpl. apply IH.
Qed.

(** X2: the first card-body block, in document order, that lacks an
    element decides the exception of [parse_page], whatever the blocks
    after it hold: [TypeError] when the block has no anchor of class
    [title], [KeyError] when its first such anchor has no title attribute,
    [AttributeError] when only the paragraph or the heading is missing. *)
Theorem parse_page_first_error (soup : node) (good : list node) (bad : node)
    (rest : list node) :
  find_all (py "div") (py "card-body") soup = good ++ bad :: rest ->
  Forall well_formed good ->
  missing_element bad ->
  parse_page soup = Raise (block_error bad).
Proof.
  intros Hb Hg Hm. unfold parse_page. rewrite Hb.
  now apply parse_blocks_first_missing.
Qed.

Lemma parse_page_first_error_witness :
  parse_page (document [card (py "A") (py "a") (py "1"); card_without_title;
                        card_without_price])
  = Raise KeyError.
Proof.
  apply (parse_page_first_error
           (document [card (py "A") (py "a") (py "1"); card_without_title;
                      card_without_price])
           [card (py "A") (py "a") (py "1")] card_without_title
           [card_without_price]).
  - reflexivity.
  - repeat constructor. eexists _, _, _. apply card_fields.
  - left. intros a [= <-]. reflexivity.
Defined.

(** ** get_pagination_links *)

Section PaginationFurther.

Variable isalnum : char -> bool.

Lemma collect_links_shape (matches : option str) (links : list node)
    (acc res : list str) :
  collect_links matches links acc = Ok res ->
  exists more, res = acc ++ more /\ length more = length links.
Proof.
  revert acc. induction links as [|link links IH]; intros acc; simpl.
  - intros [= <-]. exists []. now rewrite app_nil_r.
  - destruct (dict_get (tag_attrs link) (py "href")) as [h|]; simpl;
      [|discriminate].
    destruct matches as [origin|]; simpl; [|discriminate].
    intros H. apply IH in H as (more & -> & Hl).
    exists ((origin ++ h) :: more). rewrite <- app_assoc. simpl.
    now rewrite Hl.
Qed.

(** X3: a list [get_pagination_links] returns is empty exactly when the
    page has no pagination control; otherwise it starts with the address
    it was given, followed by one entry per anchor of the control.  So the
    caller's test of the list tells whether a control was found. *)
Theorem get_pagination_links_shape (soup : node) (url : str) (links : list str) :
  get_pagination_links isalnum soup url = Ok links ->
  (find (py "ul") (py "pagination") soup = None /\ links = [])
  \/ (exists pagination rest,
        find (py "ul") (py "pagination") soup = Some pagination
        /\ links = url :: rest
        /\ length rest = length (find_all (py "a") (py "page-link") pagination)).
Proof.
  unfold get_pagination_links.
  destruct (find (py "ul") (py "pagination") soup) as [pagination|].
  - intros H. right. apply collect_links_shape in H as (more & -> & Hl).
    now exists pagination, more.
  - intros [= <-]. now left.
Qed.

Lemma collect_links_missing_href (origin : str) (links : list node)
    (acc : list str) :
  Exists (fun link => dict_get (tag_attrs link) (py "href") = None) links ->
  collect_links (Some origin) links acc = Raise KeyError.
Proof.
  intros H. revert acc. induction H as [link links Hl|link links _ IH];
    intros acc; simpl.
  - now rewrite Hl.
  - destruct (dict_get (tag_attrs link) (py "href")); simpl; [apply IH|].
    reflexivity.
Qed.

(** X4: when the address matches the pattern and some anchor of class
    [page-link] in the pagination control has no [href],
    [get_pagination_links] raises [KeyError]: it returns no link at all,
    not the links of the other anchors. *)
Theorem get_pagination_links_missing_href
    (soup pagination : node) (url origin : str) :
  find (py "ul") (py "pagination") soup = Some pagination ->
  re_match isalnum url = Some origin ->
  Exists (fun link => dict_get (tag_attrs link) (py "href") = None)
    (find_all (py "a") (py "page-link") pagination) ->
  get_pagination_links isalnum soup url = Raise KeyError.
Proof.
  intros Hf Hm He. unfold get_pagination_links. rewrite Hf, Hm.
  now apply collect_links_missing_href.
Qed.

Lemma match_host_run (host rest : str) :
  host_char isalnum 47 = false ->
  host <> [] -> forallb (host_char isalnum) host = true ->
  match_host isalnum (host ++ 47 :: rest) = Some host.
Proof.
  intros H47. induction host as [|c host IH]; [congruence|].
  intros _ Hall. simpl in Hall. apply andb_true_iff in Hall as [Hc Hall].
  simpl. rewrite Hc. destruct host as [|c' host].
  - simpl. rewrite H47. reflexivity.
  - rewrite IH; [reflexivity|discriminate|exact Hall].
Qed.

Lemma re_match_rebuild (scheme host rest : str) :
  isalnum 47 = false ->
  scheme = py "http" \/ scheme = py "https" ->
  host <> [] -> forallb (host_char isalnum) host = true ->
  re_match isalnum ((scheme ++ py "://" ++ host) ++ 47 :: rest)
  = Some (scheme ++ py "://" ++ host).
Proof.
  intros H47 Hs Hne Hall.
  assert (Hh : host_char isalnum 47 = false).
  { unfold host_char, word_char. now rewrite H47. }
  pose proof (match_host_run host rest Hh Hne Hall) as Hm.
  destruct Hs as [-> | ->]; rewrite <- !app_assoc.
  - change (re_match isalnum (py "http" ++ py "://" ++ host ++ 47 :: rest))
      with (match_after_scheme isalnum (py "http")
              (py "://" ++ host ++ 47 :: rest)).
    unfold match_after_scheme.
    change (strip_prefix (py "://") (py "://" ++ host ++ 47 :: rest))
      with (Some (host ++ 47 :: rest)).
    cbv beta iota. now rewrite Hm.
  - change (re_match isalnum (py "https" ++ py "://" ++ host ++ 47 :: rest))
      with (match match_after_scheme isalnum (py "https")
                    (py "://" ++ host ++ 47 :: rest) with
            | Some g => Some g
            | None => match_after_scheme isalnum (py "http")
                        (115 :: py "://" ++ host ++ 47 :: rest)
            end).
    unfold match_after_scheme at 1.
    change (strip_prefix (py "://") (py "://" ++ host ++ 47 :: rest))
      with (Some (host ++ 47 :: rest)).
    cbv beta iota. now rewrite Hm.
Qed.

(** X5: the links [get_pagination_links] builds from site-relative paths
    stay on the site of the page: when the slash is no word character and
    every [href] starts with a slash, each link of the result matches the
    pattern again, with the origin of the address the function was
    given. *)
Theorem get_pagination_links_same_origin
    (soup pagination : node) (url origin : str) (hrefs : list str) :
  isalnum 47 = false ->
  find (py "ul") (py "pagination") soup = Some pagination ->
  re_match isalnum url = Some origin ->
  Forall2 has_href (find_all (py "a") (py "page-link") pagination) hrefs ->
  Forall (startswith (py "/")) hrefs ->
  exists links,
    get_pagination_links isalnum soup url = Ok links
    /\ Forall (fun link => re_match isalnum link = Some origin) links.
Proof.
  intros H47 Hf Hm Hh Hs.
  exists (url :: map (fun h => origin ++ h) hrefs). split.
  - unfold get_pagination_links. rewrite Hf, Hm.
    now rewrite (collect_links_ok origin _ hrefs [url] Hh).
  - constructor; [exact Hm|].
    apply re_match_origin in Hm
      as (scheme & host & rest & Hsch & Hne & Hall & -> & _).
    apply Forall_map. revert Hs. apply Forall_impl.
    intros h (tail & ->). now apply re_match_rebuild.
Qed.

End PaginationFurther.

Lemma get_pagination_links_shape_witness :
  (find (py "ul") (py "pagination") paginated_page = None
   /\ [listing_url; py "https://example.com/laptops?page=2";
       py "https://example.com/laptops?page=2"] = [])
  \/ (exists pagination rest,
        find (py "ul") (py "pagination") paginated_page = Some pagination
        /\ [listing_url; py "https://example.com/laptops?page=2";
            py "https://example.com/laptops?page=2"] = listing_url :: rest
        /\ length rest = length (find_all (py "a") (py "page-link") pagination)).
Proof.
  apply (get_pagination_links_shape ascii_isalnum paginated_page listing_url).
  vm_compute. reflexivity.
Defined.

Lemma get_pagination_links_missing_href_witness :
  get_pagination_links ascii_isalnum broken_pagination_page listing_url
  = Raise KeyError.
Proof.
  apply (get_pagination_links_missing_href ascii_isalnum broken_pagination_page
           (Tag (py "ul") [py "pagination"] []
              [ page_link (py "/laptops?page=2");
                Tag (py "a") [py "page-link"] [] [NavigableString (py "3")] ])
           listing_url (py "https://example.com")).
  - reflexivity.
  - vm_compute. reflexivity.
  - apply Exists_cons_tl, Exists_cons_hd. reflexivity.
Defined.

Lemma get_pagination_links_same_origin_witness :
  exists links,
    get_pagination_links ascii_isalnum paginated_page listing_url = Ok links
    /\ Forall (fun link => re_match ascii_isalnum link
                           = Some (py "https://example.com")) links.
Proof.
  apply (get_pagination_links_same_origin ascii_isalnum paginated_page
           (Tag (py "ul") [py "pagination"] []
              [ page_link (py "/laptops?page=2");
                page_link (py "/laptops?page=2") ])
           listing_url (py "https://example.com")
           [py "/laptops?page=2"; py "/laptops?page=2"]).
  - reflexivity.
  - reflexivity.
  - vm_compute. reflexivity.
  - repeat constructor.
  - repeat constructor; now exists (py "laptops?page=2").
Defined.

(** ** The exporters *)

(** X6: neither exporter touches a file other than the one it is given:
    whatever the data and the outcome, every other file of the store is as
    it was. *)
Theorem save_other_files_untouched
    (data : list (list dict)) (filename other : str) (fs : files) :
  other <> filename ->
  fst (save_to_csv data filename fs) other = fs other
  /\ fst (save_to_json data filename fs) other = fs other.
Proof.
  intros Hne. apply str_eqb_neq in Hne.
  unfold save_to_csv, save_to_json, with_open.
  destruct data as [|batch0 data]; [split; reflexivity|].
  split.
  - match goal with
    | |- context [let '(content, r) := ?m in _] => destruct m as [content r]
    end.
    simpl. unfold fs_update. now rewrite Hne.
  - match goal with
    | |- context [let '(content, r) := ?m in _] => destruct m as [content r]
    end.
    simpl. unfold fs_update. now rewrite Hne.
Qed.

Lemma save_other_files_untouched_witness :
  fst (save_to_csv [[laptop]] csv_filename
         (fs_update no_files json_filename (py "[]"))) json_filename
  = Some (py "[]")
  /\ fst (save_to_json [[laptop]] csv_filename
            (fs_update no_files json_filename (py "[]"))) json_filename
     = Some (py "[]").
Proof.
  apply (save_other_files_untouched [[laptop]] csv_filename json_filename
           (fs_update no_files json_filename (py "[]"))).
  vm_compute. discriminate.
Defined.

Lemma write_rows_app (fieldnames : list str) (a b : list dict) (content : str) :
  write_rows fieldnames (a ++ b) content
  = (write_rows fieldnames a >> write_rows fieldnames b) content.
Proof.
  revert content. induction a as [|row a IH]; intros content; simpl.
  - reflexivity.
  - unfold wbind.
    destruct (writerow fieldnames row content) as [content' [[]|e]];
      [|reflexivity].
    rewrite IH. reflexivity.
Qed.

(** The two loops of [save_to_csv] write the rows of all the batches as
    one loop over their concatenation would. *)
Lemma write_batches_concat (fieldnames : list str) (data : list (list dict))
    (content : str) :
  write_batches fieldnames data content
  = write_rows fieldnames (concat data) content.
Proof.
  revert content. induction data as [|rows data IH]; intros content; simpl.
  - reflexivity.
  - rewrite write_rows_app. unfold wbind.
    destruct (write_rows fieldnames rows content) as [content' [[]|e]];
      [apply IH|reflexivity].
Qed.

(** X7: the batch boundaries leave no trace in the files: a list of
    batches that is not empty gives the JSON file its concatenation as
    one batch gives, and so it is for the CSV file when the first batch
    has a record. *)
Theorem save_batches_concat
    (data : list (list dict)) (filename : str) (fs : files) :
  (data <> [] ->
   save_to_json data filename fs = save_to_json [concat data] filename fs)
  /\ (forall row0 rows rest,
        data = (row0 :: rows) :: rest ->
        save_to_csv data filename fs = save_to_csv [concat data] filename fs).
Proof.
  split.
  - intros Hne. destruct data as [|batch data]; [congruence|].
    unfold save_to_json. cbn [concat]. now rewrite !app_nil_r.
  - intros row0 rows rest ->. unfold save_to_csv, with_open.
    cbn [concat app]. unfold wbind.
    destruct (writeheader (keys row0) []) as [content [[]|e]]; [|reflexivity].
    rewrite !write_batches_concat. cbn [concat app]. now rewrite !app_nil_r.
Qed.

Lemma save_batches_concat_witness :
  save_to_json [[laptop]; []; [laptop]] json_filename no_files
  = save_to_json [concat [[laptop]; []; [laptop]]] json_filename no_files.
Proof.
  apply (proj1 (save_batches_concat [[laptop]; []; [laptop]] json_filename
                  no_files)).
  discriminate.
Defined.

Lemma dict_to_list_fits (fieldnames : list str) (row : dict) :
  fits fieldnames row ->
  dict_to_list fieldnames row = Ok (row_fields fieldnames row).
Proof.
  intros H. unfold dict_to_list.
  replace (forallb (fun k => mem k fieldnames) (keys row)) with true;
    [reflexivity|].
  symmetry. apply forallb_forall. intros k Hk. apply mem_In.
  unfold fits in H. rewrite Forall_forall in H. now apply H.
Qed.


Lemma dict_get_In {V} (d : list (str * V)) (k : str) (v : V) :
  dict_get d k = Some v -> In (k, v) d.
Proof.
  induction d as [|[k0 v0] d IH]; simpl; [discriminate|].
  destruct (str_eqb k0 k) eqn:E.
  - apply str_eqb_eq in E. intros [= ->]. left. now subst.
  - intros H. right. now apply IH.
Qed.

Lemma row_fields_encodable (fieldnames : list str) (row : dict) :
  dict_encodable row -> Forall str_encodable (row_fields fieldnames row).
Proof.
  intros H. unfold row_fields. apply Forall_map, Forall_forall.
  intros key _. destruct (dict_get row key) as [v|] eqn:E; [|reflexivity].
  apply dict_get_In in E. unfold dict_encodable in H.
  rewrite Forall_forall in H. exact (proj2 (H _ E)).
Qed.

Lemma keys_encodable (row : dict) :
  dict_encodable row -> Forall str_encodable (keys row).
Proof.
  unfold dict_encodable, keys. intros H. apply Forall_map.
  revert H. apply Forall_impl. tauto.
Qed.

Lemma write_rows_fit (fieldnames : list str) (rows : list dict) (content : str) :
  Forall (fits fieldnames) rows -> Forall dict_encodable rows ->
  write_rows fieldnames rows content
  = (content ++ csv_text (map (row_fields fieldnames) rows), Ok tt).
Proof.
  intros Hf. revert content.
  induction Hf as [|row rows Hrow _ IH]; intros content He; simpl.
  - unfold wret, csv_text. simpl. now rewrite app_nil_r.
  - inversion He as [|? ? Hrow_enc Hrows_enc]; subst.
    unfold wbind, writerow. rewrite (dict_to_list_fits _ _ Hrow).
    rewrite fwrite_encodable
      by (apply csv_line_encodable, row_fields_encodable; exact Hrow_enc).
    rewrite (IH _ Hrows_enc). unfold csv_text. simpl.
    now rewrite <- app_assoc.
Qed.


(** X8: when the first batch has a record, the columns of the CSV file are
    the keys of that record, in its order, for every row: each dictionary
    whose keys are among them is written by key, whatever the order of its
    own keys, with an empty field for a key it has not.  (The strings are
    ones UTF-8 can encode.) *)
Theorem save_to_csv_columns
    (row0 : dict) (rows : list dict) (rest : list (list dict))
    (filename : str) (fs : files) :
  Forall (fits (keys row0)) (concat ((row0 :: rows) :: rest)) ->
  Forall dict_encodable (concat ((row0 :: rows) :: rest)) ->
  save_to_csv ((row0 :: rows) :: rest) filename fs
  = (fs_update fs filename
       (csv_text (keys row0
                  :: map (row_fields (keys row0))
                       (concat ((row0 :: rows) :: rest)))),
     Ok tt).
Proof.
  intros Hf He. unfold save_to_csv, with_open.
  rewrite writeheader_fwrite. unfold wbind at 1.
  rewrite fwrite_encodable.
  - rewrite write_batches_concat, (write_rows_fit _ _ _ Hf He). reflexivity.
  - apply csv_line_encodable, keys_encodable.
    cbn [concat app] in He. now inversion He.
Qed.

Lemma save_to_csv_columns_witness :
  save_to_csv [[laptop]; [reordered_laptop]] csv_filename no_files
  = (fs_update no_files csv_filename
       (csv_text [[py "Name"; py "Description"; py "Price"];
                  [py "Aspire"; py "15 inch, 8GB"; py "$499"];
                  [py "Swift"; []; py "$299"]]),
     Ok tt).
Proof.
  apply (save_to_csv_columns laptop [] [[reordered_laptop]] csv_filename
           no_files).
  - repeat constructor; cbv; tauto.
  - repeat constructor.
Defined.



Lemma write_batches_empty (fieldnames : list str) (data : list (list dict))
    (content : str) :
  concat data = [] -> write_batches fieldnames data content = (content, Ok tt).
Proof. intros H. now rewrite write_batches_concat, H. Qed.

(** X10: batches without a single record still give files: for a list of
    batches that is not empty and whose batches are all empty,
    [save_to_json] writes the empty array and [save_to_csv] writes an
    empty header line, both without an error. *)
Theorem save_empty_batches
    (data : list (list dict)) (filename : str) (fs : files) :
  data <> [] -> concat data = [] ->
  save_to_json data filename fs = (fs_update fs filename (py "[]"), Ok tt)
  /\ save_to_csv data filename fs = (fs_update fs filename [13; 10], Ok tt).
Proof.
  intros Hne Hc. destruct data as [|batch0 data]; [congruence|]. split.
  - unfold save_to_json. rewrite Hc. reflexivity.
  - assert (batch0 = []) as ->.
    { cbn [concat] in Hc. now apply app_eq_nil in Hc. }
    unfold save_to_csv, with_open. rewrite writeheader_fwrite.
    unfold wbind at 1. rewrite fwrite_encodable by reflexivity.
    now rewrite (write_batches_empty _ _ _ Hc).
Qed.

Lemma save_empty_batches_witness :
  save_to_json [[]; []] json_filename no_files
  = (fs_update no_files json_filename (py "[]"), Ok tt)
  /\ save_to_csv [[]; []] json_filename no_files
     = (fs_update no_files json_filename [13; 10], Ok tt).
Proof.
  apply (save_empty_batches [[]; []] json_filename no_files).
  - discriminate.
  - reflexivity.
Defined.

(** X11: the round trip through the JSON file does not depend on the keys
    of the records: for any dictionaries of strings, with no key, other
    keys or empty strings, escaped characters included, what
    [save_to_json] writes reads back as the list of the dictionaries,
    batch after batch.  (The strings are ones UTF-8 can encode; the keys
    of a dictionary are distinct.) *)
Theorem save_to_json_any_keys
    (data : list (list dict)) (filename : str) (fs : files) :
  data <> [] ->
  Forall (fun d => NoDup (keys d)) (concat data) ->
  Forall dict_encodable (concat data) ->
  exists text,
    save_to_json data filename fs = (fs_update fs filename text, Ok tt)
    /\ json_loads text = Ok (json_of_records (concat data)).
Proof.
  intros Hne Hk He.
  exists (concat (iterencode_list (concat data) 0)). split.
  - destruct data as [|batch data]; [congruence|].
    unfold save_to_json, with_open, json_dump.
    rewrite write_chunks_encodable; [reflexivity|].
    now apply iterencode_list_encodable.
  - now apply json_loads_dump.
Qed.

Lemma save_to_json_any_keys_witness :
  exists text,
    save_to_json [odd_dicts] json_filename no_files
    = (fs_update no_files json_filename text, Ok tt)
    /\ json_loads text = Ok (json_of_records odd_dicts).
Proof.
  apply (save_to_json_any_keys [odd_dicts] json_filename no_files).
  - discriminate.
  - repeat constructor; cbv; intuition discriminate.
  - repeat constructor.
Defined.

Lemma write_chunks_outcome (chunks : list str) (content : str) :
  snd (write_chunks chunks content)
  = if forallb (forallb encodable) chunks then Ok tt
    else Raise UnicodeEncodeError.
Proof.
  revert content. induction chunks as [|chunk chunks IH]; intros content;
    [reflexivity|].
  simpl. unfold wbind, fwrite.
  destruct (forallb encodable chunk); simpl; [apply IH|reflexivity].
Qed.

Lemma forallb_Forall_encodable (chunks : list str) :
  forallb (forallb encodable) chunks = true <-> Forall str_encodable chunks.
Proof. rewrite forallb_forall, Forall_forall. reflexivity. Qed.

Lemma json_escape_encodable_inv (c : char) :
  str_encodable (json_escape c) -> encodable c = true.
Proof.
  unfold json_escape.
  repeat match goal with
         | |- context [if (c =? ?k) then _ else _] =>
             let E := fresh "E" in
             destruct (c =? k) eqn:E;
             [apply N.eqb_eq in E; subst c; reflexivity|]
         end.
  destruct (c <? 32) eqn:E32.
  - intros _. apply N.ltb_lt in E32. unfold encodable.
    apply orb_true_iff. left. apply N.ltb_lt. lia.
  - unfold str_encodable. simpl. now rewrite andb_true_r.
Qed.

Lemma encode_basestring_encodable_inv (s : str) :
  str_encodable (encode_basestring s) -> str_encodable s.
Proof.
  unfold encode_basestring. intros H.
  apply str_encodable_app in H as [_ H].
  apply str_encodable_app in H as [H _].
  induction s as [|c s IH]; [reflexivity|].
  change (flat_map json_escape (c :: s))
    with (json_escape c ++ flat_map json_escape s) in H.
  apply str_encodable_app in H as [Hc Hs].
  apply (str_encodable_app [c] s). split; [|exact (IH Hs)].
  unfold str_encodable. simpl.
  now rewrite (json_escape_encodable_inv c Hc).
Qed.

Lemma iterencode_items_encodable_inv (items : dict) (first : bool) (sep : str) :
  Forall str_encodable (iterencode_items items first sep) ->
  dict_encodable items.
Proof.
  revert first. induction items as [|[k v] items IH]; intros first H;
    [constructor|].
  cbn [iterencode_items] in H.
  apply Forall_app in H as [_ H]. apply Forall_app in H as [Hkv H].
  inversion Hkv as [|? ? Hk Hkv']; subst.
  inversion Hkv' as [|? ? _ Hkv'']; subst.
  inversion Hkv'' as [|? ? Hv _]; subst.
  constructor; [|exact (IH false H)].
  split; now apply encode_basestring_encodable_inv.
Qed.

Lemma iterencode_dict_encodable_inv (d : dict) (level : nat) :
  Forall str_encodable (iterencode_dict d level) -> dict_encodable d.
Proof.
  destruct d as [|kv items]; [constructor|].
  unfold iterencode_dict. intros H.
  apply Forall_app in H as [_ H]. apply Forall_app in H as [H _].
  exact (iterencode_items_encodable_inv _ _ _ H).
Qed.

Lemma iterencode_values_encodable_inv (lst : list dict) (buf sep : str)
    (level : nat) :
  Forall str_encodable (iterencode_values lst buf sep level) ->
  Forall dict_encodable lst.
Proof.
  revert buf. induction lst as [|d lst IH]; intros buf H; [constructor|].
  cbn [iterencode_values] in H.
  apply Forall_app in H as [_ H]. apply Forall_app in H as [Hd H].
  constructor; [exact (iterencode_dict_encodable_inv _ _ Hd)|].
  exact (IH _ H).
Qed.

Lemma iterencode_list_encodable_inv (lst : list dict) (level : nat) :
  Forall str_encodable (iterencode_list lst level) -> Forall dict_encodable lst.
Proof.
  destruct lst as [|d lst]; [constructor|].
  unfold iterencode_list. intros H. apply Forall_app in H as [H _].
  exact (iterencode_values_encodable_inv _ _ _ _ H).
Qed.

(** X12: for a list of batches that is not empty, [save_to_json] ends
    without an error exactly when UTF-8 can encode every key and every
    value; otherwise it raises [UnicodeEncodeError] (a lone surrogate,
    which [ensure_ascii=False] leaves as it is). *)
Theorem save_to_json_outcome
    (data : list (list dict)) (filename : str) (fs : files) :
  data <> [] ->
  (Forall dict_encodable (concat data) ->
   snd (save_to_json data filename fs) = Ok tt)
  /\ (~ Forall dict_encodable (concat data) ->
      snd (save_to_json data filename fs) = Raise UnicodeEncodeError).
Proof.
  intros Hne. destruct data as [|batch data]; [congruence|].
  unfold save_to_json, with_open, json_dump.
  set (lst := concat (batch :: data)).
  pose proof (write_chunks_outcome (iterencode_list lst 0) []) as Ho.
  destruct (write_chunks (iterencode_list lst 0) []) as [content r].
  cbn [snd] in *. subst r.
  destruct (forallb (forallb encodable) (iterencode_list lst 0)) eqn:E.
  - split; [reflexivity|]. intros Hn. elim Hn.
    apply forallb_Forall_encodable in E.
    exact (iterencode_list_encodable_inv _ _ E).
  - split; [|reflexivity]. intros He.
    apply (iterencode_list_encodable _ 0) in He.
    apply forallb_Forall_encodable in He. congruence.
Qed.

Lemma save_to_json_outcome_witness :
  snd (save_to_json [[laptop]; [surrogate_laptop]] json_filename no_files)
  = Raise UnicodeEncodeError.
Proof.
  apply (proj2 (save_to_json_outcome [[laptop]; [surrogate_laptop]]
                  json_filename no_files ltac:(discriminate))).
  intros H. inversion H as [|? ? _ H']. inversion H' as [|? ? Hs _].
  inversion Hs as [|? ? _ Hs']. inversion Hs' as [|? ? [_ Hd] _].
  discriminate Hd.
Defined.

(** ** The driver *)

Section DriverProperties.

Variable isalnum : char -> bool.
Variable world : Type.
Variable requests_get : str -> world -> option (N * bytes) * world.
Variable BeautifulSoup : bytes -> node.

Local Abbreviation script := (main isalnum world requests_get BeautifulSoup).
Local Abbreviation loop := (fetch_pages world requests_get BeautifulSoup).
Local Abbreviation fetch := (get_page world requests_get).
Local Abbreviation finish := (export world).

(** X13: when the answer to the first request has a status other than
    200, the run is cut short by [TypeError] (there is no markup to
    parse): one request was sent, nothing is printed and no file is
    written. *)
Theorem main_no_body (w w' : world) (fs : files) (status_code : N)
    (content : bytes) :
  requests_get base_url w = (Some (status_code, content), w') ->
  status_code <> 200 ->
  script w fs
  = {| net := w'; disk := fs; shown := [Requested base_url];
       ended := Some (Uncaught TypeError) |}.
Proof.
  intros Hr Hs. unfold main, get_page. rewrite Hr.
  apply N.eqb_neq in Hs. rewrite Hs. reflexivity.
Qed.

(** X14: when the first page has no pagination control, the run sends
    that one request, prints that it could not get the page and ends
    without an error; no file is written, though the cards of the page
    were there to read. *)
Theorem main_no_control (w w' : world) (fs : files) (content : bytes) :
  requests_get base_url w = (Some (200, content), w') ->
  find (py "ul") (py "pagination") (BeautifulSoup content) = None ->
  script w fs
  = {| net := w'; disk := fs;
       shown := [Requested base_url; Printed no_page_line];
       ended := None |}.
Proof.
  intros Hr Hf. unfold main, get_page. rewrite Hr.
  change (200 =? 200) with true. cbv iota. cbn [soup_of bind].
  unfold get_pagination_links. rewrite Hf. reflexivity.
Qed.

Lemma fetch_pages_log (links : list str) (acc : list (list dict)) (w : world)
    (log : list event) :
  exists done,
    snd (loop links acc w log) = log ++ map Requested done
    /\ (fst (fst (fst (loop links acc w log))) = None ->
        done = links
        /\ length (snd (fst (fst (loop links acc w log))))
           = (length acc + length links)%nat).
Proof.
  revert acc w log. induction links as [|page links IH]; intros acc w log.
  - exists []. simpl. rewrite app_nil_r. split; [reflexivity|]. intros _.
    split; [reflexivity|lia].
  - cbn [fetch_pages].
    destruct (fetch page w) as [[html|] w1].
    + destruct (soup <- soup_of BeautifulSoup html ;; parse_page soup)
        as [page_data|e].
      * destruct (IH (acc ++ [page_data]) w1 (log ++ [Requested page]))
          as (done & Hlog & Hok).
        exists (page :: done). split.
        -- rewrite Hlog, <- app_assoc. reflexivity.
        -- intros Hn. destruct (Hok Hn) as [-> Hl]. split; [reflexivity|].
           rewrite Hl, length_app. simpl. lia.
      * exists [page]. simpl. split; [reflexivity|discriminate].
    + exists [page]. simpl. split; [reflexivity|discriminate].
Qed.

Lemma get_pagination_links_head (soup : node) (url : str) (links : list str) :
  get_pagination_links isalnum soup url = Ok links ->
  links = [] \/ exists rest, links = url :: rest.
Proof.
  unfold get_pagination_links.
  destruct (find (py "ul") (py "pagination") soup) as [pagination|].
  - intros H. right. apply collect_links_shape in H as (more & -> & _).
    now exists more.
  - intros [= <-]. now left.
Qed.

Lemma export_cases (all_data : list (list dict)) (w : world) (fs : files)
    (log : list event) :
  all_data <> [] ->
  (ended (finish all_data w fs log) = None
   /\ shown (finish all_data w fs log) = log ++ [Printed saved_line]
   /\ exists fs1,
        save_to_csv all_data csv_filename fs = (fs1, Ok tt)
        /\ save_to_json all_data json_filename fs1
           = (disk (finish all_data w fs log), Ok tt))
  \/ (exists e, ended (finish all_data w fs log) = Some (Uncaught e)
                /\ shown (finish all_data w fs log) = log).
Proof.
  intros Hne. destruct all_data as [|batch all_data]; [congruence|].
  unfold export.
  destruct (save_to_csv (batch :: all_data) csv_filename fs) as [fs1 [[]|e]].
  - destruct (save_to_json (batch :: all_data) json_filename fs1)
      as [fs2 [[]|e]] eqn:Ej.
    + left. simpl. repeat split. exists fs1. split; [reflexivity|exact Ej].
    + right. exists e. simpl. auto.
  - right. exists e. simpl. auto.
Qed.

(** The runs of the script: cut short before or inside the loop, ended
    for want of a pagination control, or gone through the export. *)
Lemma main_cases (w : world) (fs : files) :
  (exists done c,
     shown (script w fs) = Requested base_url :: map Requested done
     /\ disk (script w fs) = fs /\ ended (script w fs) = Some c)
  \/ (shown (script w fs) = [Requested base_url; Printed no_page_line]
      /\ disk (script w fs) = fs /\ ended (script w fs) = None)
  \/ (exists rest all_data w1,
        all_data <> [] /\ length all_data = S (length rest)
        /\ script w fs
           = finish all_data w1 fs
               (Requested base_url :: map Requested (base_url :: rest)
                ++ [PrintedData all_data])).
Proof.
  unfold main.
  destruct (fetch base_url w) as [[html|] w0].
  - destruct (soup <- soup_of BeautifulSoup html ;;
              get_pagination_links isalnum soup base_url)
      as [links|e] eqn:El.
    + assert (Hl : links = [] \/ exists rest, links = base_url :: rest).
      { destruct html as [markup|]; [|discriminate].
        exact (get_pagination_links_head _ _ _ El). }
      destruct Hl as [->|(rest & ->)].
      * right. left. simpl. auto.
      * destruct (fetch_pages_log (base_url :: rest) [] w0 [Requested base_url])
          as (done & Hlog & Hok).
        destruct (loop (base_url :: rest) [] w0 [Requested base_url])
          as [[[[c|] all_data] w1] log]; simpl in Hlog, Hok; subst log.
        -- left. exists done, c. simpl. auto.
        -- right. right. destruct (Hok eq_refl) as [-> Hlen].
           exists rest, all_data, w1. repeat split.
           ++ intros ->. simpl in Hlen. discriminate.
           ++ exact Hlen.
    + left. exists [], (Uncaught e). simpl. auto.
  - left. exists [], RequestFailed. simpl. auto.
Qed.

Lemma not_Printed_in_requests (line : str) (urls : list str) :
  ~ In (Printed line) (map Requested urls).
Proof. intros H. apply in_map_iff in H as (u & E & _). discriminate. Qed.

(** X15: the script never prints that it could not save the data: once
    the loop is entered there is a batch for every page, so the list it
    tests is never empty, even when no page has a card. *)
Theorem main_never_not_saved (w : world) (fs : files) :
  ~ In (Printed not_saved_line) (shown (script w fs)).
Proof.
  destruct (main_cases w fs)
    as [(done & c & -> & _)|[(-> & _)|(rest & all_data & w1 & Hne & _ & ->)]].
  - intros [H|H]; [discriminate|]. exact (not_Printed_in_requests _ _ H).
  - intros [H|[H|[]]]; discriminate.
  - assert (Hlog : ~ In (Printed not_saved_line)
                     (Requested base_url :: map Requested (base_url :: rest)
                      ++ [PrintedData all_data])).
    { intros [H|H]; [discriminate|]. apply in_app_or in H as [H|[H|[]]].
      - exact (not_Printed_in_requests _ _ H).
      - discriminate. }
    destruct (export_cases all_data w1 fs
                (Requested base_url :: map Requested (base_url :: rest)
                 ++ [PrintedData all_data]) Hne)
      as [(_ & -> & _)|(e & _ & ->)]; [|exact Hlog].
    intros H. apply in_app_or in H as [H|[H|[]]]; [now apply Hlog|].
    discriminate.
Qed.

Local Abbreviation read := (pages_read world requests_get BeautifulSoup).

Lemma pages_read_length (links : list str) (w w' : world)
    (all_data : list (list dict)) :
  read links w all_data w' -> length all_data = length links.
Proof.
  revert w all_data. induction links as [|page links IH];
    intros w [|page_data all_data]; simpl; try tauto.
  intros (content & w1 & _ & _ & H). f_equal. exact (IH _ _ H).
Qed.

(** A loop that ends without an exception has requested every link, in
    order, and added the batch of each page. *)
Lemma fetch_pages_read (links : list str) (acc : list (list dict)) (w : world)
    (log : list event) (all_data : list (list dict)) (w' : world)
    (log' : list event) :
  loop links acc w log = (None, all_data, w', log') ->
  exists batches,
    all_data = acc ++ batches
    /\ read links w batches w'
    /\ log' = log ++ map Requested links.
Proof.
  revert acc w log. induction links as [|page links IH]; intros acc w log.
  - intros [= <- <- <-]. exists []. simpl. now rewrite !app_nil_r.
  - cbn [fetch_pages]. unfold get_page.
    destruct (requests_get page w) as [[[status_code content]|] w1] eqn:Er;
      [|discriminate].
    destruct (status_code =? 200) eqn:Es; [|discriminate].
    apply N.eqb_eq in Es. subst status_code. cbn [soup_of bind].
    destruct (parse_page (BeautifulSoup content)) as [page_data|e] eqn:Ep;
      [|discriminate].
    intros H. apply IH in H as (batches & -> & Hread & ->).
    exists (page_data :: batches). repeat split.
    + now rewrite <- app_assoc.
    + simpl. exists content, w1. auto.
    + now rewrite <- app_assoc.
Qed.

(** The runs of the script, with what each one has read: cut short
    before or inside the loop; ended for want of a pagination control on
    the first page; or gone into the export with the batches of all the
    links of the first page. *)
Lemma main_outcomes (w : world) (fs : files) :
  (exists done c,
     shown (script w fs) = Requested base_url :: map Requested done
     /\ disk (script w fs) = fs /\ ended (script w fs) = Some c)
  \/ (exists content w0,
        requests_get base_url w = (Some (200, content), w0)
        /\ find (py "ul") (py "pagination") (BeautifulSoup content) = None
        /\ script w fs
           = {| net := w0; disk := fs;
                shown := [Requested base_url; Printed no_page_line];
                ended := None |})
  \/ (exists content w0 rest all_data w1,
        requests_get base_url w = (Some (200, content), w0)
        /\ get_pagination_links isalnum (BeautifulSoup content) base_url
           = Ok (base_url :: rest)
        /\ read (base_url :: rest) w0 all_data w1
        /\ script w fs
           = finish all_data w1 fs
               (Requested base_url :: map Requested (base_url :: rest)
                ++ [PrintedData all_data])).
Proof.
  unfold main, get_page.
  destruct (requests_get base_url w) as [[[status_code content]|] w0] eqn:Er.
  - destruct (status_code =? 200) eqn:Es.
    + apply N.eqb_eq in Es. subst status_code. cbn [soup_of bind].
      destruct (get_pagination_links isalnum (BeautifulSoup content) base_url)
        as [links|e] eqn:El.
      * pose proof El as Hshape. unfold get_pagination_links in Hshape.
        destruct (find (py "ul") (py "pagination") (BeautifulSoup content))
          as [pagination|] eqn:Ef.
        -- apply collect_links_shape in Hshape as (more & -> & _).
           cbn [app].
           destruct (loop (base_url :: more) [] w0 [Requested base_url])
             as [[[[c|] all_data] w1] log] eqn:Eloop.
           ++ left.
              destruct (fetch_pages_log (base_url :: more) [] w0
                          [Requested base_url]) as (done & Hlog & _).
              rewrite Eloop in Hlog. simpl in Hlog. subst log.
              exists done, c. simpl. auto.
           ++ right. right.
              apply fetch_pages_read in Eloop as (batches & -> & Hread & ->).
              exists content, w0, more, batches, w1. cbn [app].
              repeat split; [exact El|exact Hread].
        -- injection Hshape as <-. right. left.
           exists content, w0. auto.
      * left. exists [], (Uncaught e). simpl. auto.
    + left. exists [], (Uncaught TypeError). simpl. auto.
  - left. exists [], RequestFailed. simpl. auto.
Qed.

(** X16: a run that ends without an error either got the first page, found
    no pagination control on it and wrote nothing, or went all the way:
    it got the first page, then requested every link
    [get_pagination_links] returned for it once and in order, the first
    page again as the first of them, read one batch from the page of
    each answer, printed the batches, wrote the CSV file and then the
    JSON file, both without an error, and printed the confirmation. *)
Theorem main_ended_normally (w : world) (fs : files) :
  ended (script w fs) = None ->
  (exists content w0,
     requests_get base_url w = (Some (200, content), w0)
     /\ find (py "ul") (py "pagination") (BeautifulSoup content) = None
     /\ shown (script w fs) = [Requested base_url; Printed no_page_line]
     /\ disk (script w fs) = fs)
  \/ (exists content w0 rest all_data w1 fs1,
        requests_get base_url w = (Some (200, content), w0)
        /\ get_pagination_links isalnum (BeautifulSoup content) base_url
           = Ok (base_url :: rest)
        /\ read (base_url :: rest) w0 all_data w1
        /\ shown (script w fs)
           = Requested base_url :: map Requested (base_url :: rest)
             ++ [PrintedData all_data; Printed saved_line]
        /\ length all_data = S (length rest)
        /\ save_to_csv all_data csv_filename fs = (fs1, Ok tt)
        /\ save_to_json all_data json_filename fs1
           = (disk (script w fs), Ok tt)).
Proof.
  destruct (main_outcomes w fs)
    as [(done & c & _ & _ & ->)
       |[(content & w0 & Hr & Hf & ->)
        |(content & w0 & rest & all_data & w1 & Hr & Hl & Hread & ->)]].
  - discriminate.
  - intros _. left. exists content, w0. auto.
  - intros He. right.
    pose proof (pages_read_length _ _ _ _ Hread) as Hlen.
    assert (Hne : all_data <> []) by (intros ->; discriminate).
    destruct (export_cases all_data w1 fs
                (Requested base_url :: map Requested (base_url :: rest)
                 ++ [PrintedData all_data]) Hne)
      as [(_ & Hs & fs1 & Hc & Hj)|(e & Hc & _)]; [|congruence].
    exists content, w0, rest, all_data, w1, fs1.
    repeat split; try assumption.
    rewrite Hs. cbn [app]. rewrite <- app_assoc. reflexivity.
Qed.

(** X17: no file is written before every page has been fetched and read:
    whatever cuts a run short, the files are as they were unless the
    script has got the first page, requested every link
    [get_pagination_links] returned for it, in order, read a batch from
    the page of each answer and printed the batches. *)
Theorem main_writes_last (w : world) (fs : files) :
  disk (script w fs) = fs
  \/ (exists content w0 rest all_data w1 tail,
        requests_get base_url w = (Some (200, content), w0)
        /\ get_pagination_links isalnum (BeautifulSoup content) base_url
           = Ok (base_url :: rest)
        /\ read (base_url :: rest) w0 all_data w1
        /\ shown (script w fs)
           = Requested base_url :: map Requested (base_url :: rest)
             ++ PrintedData all_data :: tail
        /\ length all_data = S (length rest)).
Proof.
  destruct (main_outcomes w fs)
    as [(done & c & _ & -> & _)
       |[(content & w0 & Hr & Hf & ->)
        |(content & w0 & rest & all_data & w1 & Hr & Hl & Hread & ->)]].
  - now left.
  - now left.
  - right.
    pose proof (pages_read_length _ _ _ _ Hread) as Hlen.
    assert (Hne : all_data <> []) by (intros ->; discriminate).
    destruct (export_cases all_data w1 fs
                (Requested base_url :: map Requested (base_url :: rest)
                 ++ [PrintedData all_data]) Hne)
      as [(_ & Hs & _)|(e & _ & Hs)]; rewrite Hs.
    + exists content, w0, rest, all_data, w1, [Printed saved_line].
      repeat split; try assumption.
      cbn [app]. rewrite <- app_assoc. reflexivity.
    + exists content, w0, rest, all_data, w1, []. repeat split; assumption.
Qed.

End DriverProperties.

Lemma main_no_body_witness :
  main ascii_isalnum nat (constant_status 404) (fun _ => site_page) 0%nat no_files
  = {| net := 1%nat; disk := no_files; shown := [Requested base_url];
       ended := Some (Uncaught TypeError) |}.
Proof.
  apply (main_no_body ascii_isalnum nat (constant_status 404)
           (fun _ => site_page) 0%nat 1%nat no_files 404 []).
  - reflexivity.
  - discriminate.
Defined.

Lemma main_no_control_witness :
  main ascii_isalnum nat (constant_status 200) (fun _ => unpaginated_page)
    0%nat no_files
  = {| net := 1%nat; disk := no_files;
       shown := [Requested base_url; Printed no_page_line];
       ended := None |}.
Proof.
  apply (main_no_control ascii_isalnum nat (constant_status 200)
           (fun _ => unpaginated_page) 0%nat 1%nat no_files []).
  - reflexivity.
  - reflexivity.
Defined.

Lemma main_ended_normally_witness :
  (exists content w0,
     constant_status 200 base_url 0%nat = (Some (200, content), w0)
     /\ find (py "ul") (py "pagination") site_page = None
     /\ shown (main ascii_isalnum nat (constant_status 200)
                 (fun _ => site_page) 0%nat no_files)
        = [Requested base_url; Printed no_page_line]
     /\ disk (main ascii_isalnum nat (constant_status 200)
                (fun _ => site_page) 0%nat no_files) = no_files)
  \/ (exists content w0 rest all_data w1 fs1,
        constant_status 200 base_url 0%nat = (Some (200, content), w0)
        /\ get_pagination_links ascii_isalnum site_page base_url
           = Ok (base_url :: rest)
        /\ pages_read nat (constant_status 200) (fun _ => site_page)
             (base_url :: rest) w0 all_data w1
        /\ shown (main ascii_isalnum nat (constant_status 200)
                    (fun _ => site_page) 0%nat no_files)
           = Requested base_url :: map Requested (base_url :: rest)
             ++ [PrintedData all_data; Printed saved_line]
        /\ length all_data = S (length rest)
        /\ save_to_csv all_data csv_filename no_files = (fs1, Ok tt)
        /\ save_to_json all_data json_filename fs1
           = (disk (main ascii_isalnum nat (constant_status 200)
                      (fun _ => site_page) 0%nat no_files), Ok tt)).
Proof.
  apply (main_ended_normally ascii_isalnum nat (constant_status 200)
           (fun _ => site_page) 0%nat no_files).
  vm_compute. reflexivity.
Defined.

(** ** From the pages to the files *)

(** X18: what [parse_page] returns, the exporters take: for batches read
    from pages, the first of them with a record, whose strings UTF-8 can
    encode, [save_to_csv] never meets a key outside its columns; it
    writes the header [Name,Description,Price] and one row of the three
    values per record, and [save_to_json] writes a text that reads back
    as all the records. *)
Theorem parsed_batches_export
    (soups : list node) (data : list (list dict)) (row0 : dict)
    (rows : list dict) (rest : list (list dict)) (filename : str) (fs : files) :
  Forall2 (fun soup batch => parse_page soup = Ok batch) soups data ->
  data = (row0 :: rows) :: rest ->
  Forall (Forall dict_encodable) data ->
  save_to_csv data filename fs
  = (fs_update fs filename
       (csv_text ([py "Name"; py "Description"; py "Price"]
                  :: map values (concat data))),
     Ok tt)
  /\ exists text,
       save_to_json data filename fs = (fs_update fs filename text, Ok tt)
       /\ json_loads text = Ok (json_of_records (concat data)).
Proof.
  intros Hp Hd He.
  assert (Hr : Forall (Forall is_record) data).
  { clear Hd He. induction Hp as [|soup batch soups data Hb _ IH];
      constructor; [|exact IH].
    exact (parse_page_is_record _ _ Hb). }
  subst data. split.
  - unfold save_to_csv, with_open. rewrite writeheader_fwrite.
    assert (Hk : keys row0 = [py "Name"; py "Description"; py "Price"]).
    { inversion Hr as [|? ? Hb _]; subst. now inversion Hb. }
    rewrite Hk. unfold wbind at 1. rewrite fwrite_encodable by reflexivity.
    rewrite (write_batches_records _ _ Hr He). reflexivity.
  - exists (concat (iterencode_list (concat ((row0 :: rows) :: rest)) 0)).
    split.
    + unfold save_to_json, with_open, json_dump.
      rewrite write_chunks_encodable; [reflexivity|].
      apply iterencode_list_encodable. now apply Forall_concat.
    + apply json_loads_dump. apply Forall_concat in Hr.
      revert Hr. apply Forall_impl. exact is_record_nodup.
Qed.

Lemma parsed_batches_export_witness :
  save_to_csv [[record (py "Aspire") (py "15 inch") (py "$499")]; []]
    csv_filename no_files
  = (fs_update no_files csv_filename
       (csv_text [[py "Name"; py "Description"; py "Price"];
                  [py "Aspire"; py "15 inch"; py "$499"]]),
     Ok tt)
  /\ exists text,
       save_to_json [[record (py "Aspire") (py "15 inch") (py "$499")]; []]
         csv_filename no_files
       = (fs_update no_files csv_filename text, Ok tt)
       /\ json_loads text
          = Ok (json_of_records [record (py "Aspire") (py "15 inch") (py "$499")]).
Proof.
  apply (parsed_batches_export [site_page; empty_pagination_page]
           [[record (py "Aspire") (py "15 inch") (py "$499")]; []]
           (record (py "Aspire") (py "15 inch") (py "$499")) [] [[]]
           csv_filename no_files).
  - repeat constructor.
  - reflexivity.
  - repeat constructor.
Defined.
